(** * ra-data-thecore: the react-admin data provider of src/thecore.js

    A shallow embedding of the provider: JavaScript values, the built-ins
    the provider calls (template literals, [JSON.stringify], [parseInt],
    [split], [join], [Object.entries]), the [stringify] function it imports
    from the query-string package, the nine operations of the provider over
    an injected HTTP client, and the properties of the requests they build
    and of the results they return. *)

From Stdlib Require Import ZArith List Bool Ascii String DecimalString Lia.
Import ListNotations.
Local Open Scope string_scope.
Local Open Scope Z_scope.
Set Warnings "-register-all".

(** ** JavaScript values *)

(** The data the provider handles: JSON-like values plus [undefined],
    [NaN] and the infinities.  A string holds the UTF-8 bytes of a
    well-formed JavaScript string of the basic plane.  A number is an
    integer (ids, page numbers, counts) and stands for the double nearest
    to it, which up to 2^53 in magnitude is the integer itself; fractions
    and the sign of zero are outside the model.  An object is the
    list of its own properties in enumeration order, its keys distinct. *)
Inductive value : Type :=
| VUndefined
| VNull
| VBool (b : bool)
| VNum (n : Z)
| VNaN
| VInfinity (negative : bool)
| VStr (s : string)
| VArr (l : list value)
| VObj (props : list (string * value)).

Definition object := list (string * value).

(** What a failed operation carries: the [TypeError] the engine raises on
    a property read of [null] or [undefined] or on a call of something that
    is no function, or whatever value the HTTP client failed with. *)
Inductive error : Type :=
| TypeError
| TransportError (payload : value).

(** Synchronous code that may throw. *)
Definition exc (A : Type) : Type := (error + A)%type.

Definition ret {A} (a : A) : exc A := inr a.
Definition throw {A} (e : error) : exc A := inl e.
Definition bind {A B} (m : exc A) (f : A -> exc B) : exc B :=
  match m with inl e => inl e | inr a => f a end.

Notation "x <- m ;; k" := (bind m (fun x => k))
  (at level 61, m at next level, right associativity).

(** ** Characters and strings *)

Definition DQUOTE : ascii := "034"%char.
Definition BACKSLASH : ascii := "092"%char.

Definition chr (c : ascii) : string := String c EmptyString.
Definition code (c : ascii) : N := N_of_ascii c.

Definition is_digit (c : ascii) : bool :=
  (48 <=? code c)%N && (code c <=? 57)%N.

Definition digit_val (c : ascii) : Z := Z.of_N (code c) - 48.

(** [Array.prototype.join] on strings. *)
Fixpoint join_strings (sep : string) (l : list string) : string :=
  match l with
  | [] => ""
  | [s] => s
  | s :: rest => s ++ sep ++ join_strings sep rest
  end.

(** Decimal rendering of an integer. *)
Definition string_of_Z (n : Z) : string := NilZero.string_of_int (Z.to_int n).

(** ** Numbers *)

(** The double nearest to the integer [n >= 0], ties going to the even
    significand: [n] itself up to 2^53, a multiple of a power of two with
    a 53-bit significand above; [None] from the point where the nearest
    double is infinite. *)
Definition nearest_double (n : Z) : option Z :=
  if n <=? 2 ^ 53 then Some n
  else
    let e := Z.log2 n - 52 in
    let q := Z.shiftr n e in
    let r := n - Z.shiftl q e in
    let half := Z.shiftl 1 (e - 1) in
    let q' := if (half <? r) || ((r =? half) && Z.odd q) then q + 1 else q in
    let m := Z.shiftl q' e in
    if m <? 2 ^ 1024 then Some m else None.

Definition rounds_to (x c : Z) : bool :=
  match nearest_double c with Some m => m =? x | None => false end.

(** The decimal with the fewest significant digits that the double [x]
    is the nearest double of; among several with as few digits the one
    closest to [x], then the one with the even last digit.  [d] is the
    number of digits of [x] and [k] the number of digits tried. *)
Fixpoint shortest_decimal (fuel : nat) (k d x : Z) : Z :=
  match fuel with
  | O => x
  | S fuel' =>
      let p := 10 ^ (d - k) in
      let lo := (x / p) * p in
      let hi := lo + p in
      match rounds_to x lo, rounds_to x hi with
      | true, true =>
          if x - lo <? hi - x then lo
          else if hi - x <? x - lo then hi
          else if Z.even (x / p) then lo else hi
      | true, false => lo
      | false, true => hi
      | false, false => shortest_decimal fuel' (k + 1) d x
      end
  end.

Fixpoint strip_zeros (s : string) : string :=
  match s with
  | EmptyString => ""
  | String c rest =>
      match strip_zeros rest with
      | EmptyString => if (N_of_ascii c =? 48)%N then "" else String c ""
      | r => String c r
      end
  end.

(** [1e+21], [1.2345678901234568e+29]: the digits of a decimal, a point
    after the first when there are more, and its power of ten. *)
Definition exponent_notation (c : Z) : string :=
  let text := string_of_Z c in
  let power := string_of_Z (Z.of_nat (String.length text) - 1) in
  match strip_zeros text with
  | String first EmptyString => String first ("e+" ++ power)
  | String first more => String first ("." ++ more ++ "e+" ++ power)
  | EmptyString => "0"
  end.

(** [Number.prototype.toString] on the number the integer [n] stands
    for, the double nearest to it: plain decimal below 10^21, from there
    the shortest digits that name the double, in exponent notation. *)
Definition number_to_string (n : Z) : string :=
  (if n <? 0 then "-" else "")
  ++ match nearest_double (Z.abs n) with
     | None => "Infinity"
     | Some x =>
         if x <? 10 ^ 21 then string_of_Z x
         else
           exponent_notation
             (shortest_decimal 17 1
                (Z.of_nat (String.length (string_of_Z x))) x)
     end.

(** The number value of the integer [n >= 0]: the nearest double, or
    [Infinity]. *)
Definition Number_of_Z (n : Z) : value :=
  match nearest_double n with
  | Some m => VNum m
  | None => VInfinity false
  end.

(** The code points of a string: a byte opens a new code point unless it is
    a UTF-8 continuation byte (10xxxxxx). *)
Definition is_continuation (c : ascii) : bool :=
  (128 <=? code c)%N && (code c <? 192)%N.

Fixpoint code_points_from (cur : string) (s : string) : list string :=
  match s with
  | EmptyString => [cur]
  | String c rest =>
      if is_continuation c then code_points_from (cur ++ chr c) rest
      else cur :: code_points_from (chr c) rest
  end.

Definition code_points (s : string) : list string :=
  match s with
  | EmptyString => []
  | String c rest => code_points_from (chr c) rest
  end.

(** ** Coercions *)

(** [ToString], as a template literal applies it to an interpolated
    value.  Inside an array, [null] and [undefined] render as the empty
    string ([Array.prototype.join]). *)
Fixpoint ToString (v : value) : string :=
  match v with
  | VUndefined => "undefined"
  | VNull => "null"
  | VBool true => "true"
  | VBool false => "false"
  | VNum n => number_to_string n
  | VNaN => "NaN"
  | VInfinity true => "-Infinity"
  | VInfinity false => "Infinity"
  | VStr s => s
  | VArr l =>
      join_strings ","
        (map (fun x => match x with
                       | VUndefined | VNull => ""
                       | _ => ToString x
                       end) l)
  | VObj _ => "[object Object]"
  end.

Definition join_element (v : value) : string :=
  match v with
  | VUndefined | VNull => ""
  | _ => ToString v
  end.

(** [arr.join(sep)]. *)
Definition array_join (sep : string) (l : list value) : string :=
  join_strings sep (map join_element l).

(** [ToBoolean]: the falsy values are [undefined], [null], [false], [0],
    [NaN] and the empty string. *)
Definition truthy (v : value) : bool :=
  match v with
  | VUndefined | VNull | VNaN => false
  | VBool b => b
  | VNum n => negb (n =? 0)
  | VStr s => negb (s =? "")%string
  | VInfinity _ | VArr _ | VObj _ => true
  end.

(** ** Objects *)

Fixpoint lookup (k : string) (o : object) : option value :=
  match o with
  | [] => None
  | (k', v) :: rest => if (k' =? k)%string then Some v else lookup k rest
  end.

(** [o[k] = v]: an existing property keeps its place, a new one goes last
    (the keys the provider assigns are never array indices). *)
Fixpoint obj_set (k : string) (v : value) (o : object) : object :=
  match o with
  | [] => [(k, v)]
  | (k', v') :: rest =>
      if (k' =? k)%string then (k, v) :: rest else (k', v') :: obj_set k v rest
  end.

Definition keys (o : object) : list string := map fst o.

(** [v.name] for the property names the provider reads ([page],
    [perPage], [field], [order], [id]): none of them is an index, [length]
    or a member of a built-in prototype, so only an object can hold them;
    reading them from [null] or [undefined] throws. *)
Definition get_field (v : value) (name : string) : exc value :=
  match v with
  | VUndefined | VNull => throw TypeError
  | VObj o => ret (match lookup name o with Some x => x | None => VUndefined end)
  | _ => ret VUndefined
  end.

(** [params.name] on the parameter object. *)
Definition param (params : object) (name : string) : value :=
  match lookup name params with Some x => x | None => VUndefined end.

Fixpoint indexed_from (i : Z) (l : list value) : object :=
  match l with
  | [] => []
  | v :: rest => (string_of_Z i, v) :: indexed_from (i + 1) rest
  end.

(** The own enumerable properties of a value: those of an object, the
    indexed elements of an array, the indexed characters of a string, none
    for the other primitives. *)
Definition own_entries (v : value) : object :=
  match v with
  | VObj o => o
  | VArr l => indexed_from 0 l
  | VStr s => indexed_from 0 (map VStr (code_points s))
  | _ => []
  end.

(** [Object.entries(v)], which throws on [null] and [undefined]. *)
Definition Object_entries (v : value) : exc object :=
  match v with
  | VUndefined | VNull => throw TypeError
  | _ => ret (own_entries v)
  end.

(** [{...base, ...v}]: the spread copies the own properties of [v] in
    order, later ones overwriting; [null] and [undefined] spread to
    nothing. *)
Definition spread (base : object) (v : value) : object :=
  fold_left (fun o kv => obj_set (fst kv) (snd kv) o) (own_entries v) base.

(** ** JSON *)

Definition hex_digit (upper : bool) (n : N) : ascii :=
  if (n <? 10)%N then ascii_of_N (48 + n)
  else ascii_of_N ((if upper then 55 else 87) + n).

Definition hex2 (upper : bool) (n : N) : string :=
  String (hex_digit upper (n / 16)) (chr (hex_digit upper (n mod 16))).

(** One character of [QuoteJSONString]: the quote, the backslash and the
    control characters are escaped, everything else is copied. *)
Definition json_escape_char (c : ascii) : string :=
  let n := code c in
  if (n =? 34)%N then String BACKSLASH (chr DQUOTE)
  else if (n =? 92)%N then String BACKSLASH (chr BACKSLASH)
  else if (n =? 8)%N then String BACKSLASH "b"
  else if (n =? 9)%N then String BACKSLASH "t"
  else if (n =? 10)%N then String BACKSLASH "n"
  else if (n =? 12)%N then String BACKSLASH "f"
  else if (n =? 13)%N then String BACKSLASH "r"
  else if (n <? 32)%N then String BACKSLASH ("u00" ++ hex2 false n)
  else chr c.

Fixpoint json_escape (s : string) : string :=
  match s with
  | EmptyString => ""
  | String c rest => json_escape_char c ++ json_escape rest
  end.

(** [JSON.stringify(s)] for a string [s]. *)
Definition json_quote (s : string) : string :=
  String DQUOTE (json_escape s ++ chr DQUOTE).

(** [JSON.stringify(v)]; [None] stands for the result [undefined].  A
    property whose value is [undefined] is left out of an object, and
    [undefined] inside an array is written [null]. *)
Fixpoint JSON_stringify (v : value) : option string :=
  match v with
  | VUndefined => None
  | VNull | VNaN | VInfinity _ => Some "null"
  | VBool true => Some "true"
  | VBool false => Some "false"
  | VNum n => Some (number_to_string n)
  | VStr s => Some (json_quote s)
  | VArr l =>
      Some ("[" ++ join_strings ","
                     (map (fun x => match JSON_stringify x with
                                    | Some t => t
                                    | None => "null"
                                    end) l) ++ "]")
  | VObj o =>
      Some ("{" ++ join_strings ","
                     (flat_map (fun kv => match JSON_stringify (snd kv) with
                                          | Some t => [json_quote (fst kv) ++ ":" ++ t]
                                          | None => []
                                          end) o) ++ "}")
  end.

(** [JSON.stringify] where the program uses its result as a string. *)
Definition JSON_stringify_str (v : value) : string :=
  match JSON_stringify v with Some t => t | None => "undefined" end.

Definition hex_val (c : ascii) : option N :=
  let n := code c in
  if ((48 <=? n) && (n <=? 57))%N then Some (n - 48)%N
  else if ((97 <=? n) && (n <=? 102))%N then Some (n - 87)%N
  else if ((65 <=? n) && (n <=? 70))%N then Some (n - 55)%N
  else None.

(** UTF-8 bytes of one code unit of the basic plane; a surrogate has
    none of its own. *)
Definition utf8_of_unit (n : N) : option string :=
  if (n <? 128)%N then Some (chr (ascii_of_N n))
  else if (n <? 2048)%N then
    Some (String (ascii_of_N (192 + n / 64)) (chr (ascii_of_N (128 + n mod 64))))
  else if ((55296 <=? n) && (n <=? 57343))%N then None
  else
    Some (String (ascii_of_N (224 + n / 4096))
            (String (ascii_of_N (128 + (n / 64) mod 64))
               (chr (ascii_of_N (128 + n mod 64))))).

Definition json_simple_escape (e : ascii) : option ascii :=
  let n := code e in
  if (n =? 34)%N then Some DQUOTE
  else if (n =? 92)%N then Some BACKSLASH
  else if (n =? 47)%N then Some "/"%char
  else if (n =? 98)%N then Some "008"%char
  else if (n =? 102)%N then Some "012"%char
  else if (n =? 110)%N then Some "010"%char
  else if (n =? 114)%N then Some "013"%char
  else if (n =? 116)%N then Some "009"%char
  else None.

(** The characters of a JSON string literal after its opening quote, up to
    the closing quote, which must end the text. *)
Fixpoint json_unescape (s : string) : option string :=
  match s with
  | EmptyString => None
  | String c rest =>
      if (code c =? 34)%N then
        match rest with EmptyString => Some "" | _ => None end
      else if (code c =? 92)%N then
        match rest with
        | EmptyString => None
        | String e rest1 =>
            if (code e =? 117)%N then
              match rest1 with
              | String h1 (String h2 (String h3 (String h4 rest2))) =>
                  match hex_val h1, hex_val h2, hex_val h3, hex_val h4 with
                  | Some a, Some b, Some c', Some d =>
                      match utf8_of_unit (((a * 16 + b) * 16 + c') * 16 + d)%N,
                            json_unescape rest2 with
                      | Some u, Some t => Some (u ++ t)
                      | _, _ => None
                      end
                  | _, _, _, _ => None
                  end
              | _ => None
              end
            else
              match json_simple_escape e, json_unescape rest1 with
              | Some x, Some t => Some (String x t)
              | _, _ => None
              end
        end
      else if (code c <? 32)%N then None
      else
        match json_unescape rest with
        | Some t => Some (String c t)
        | None => None
        end
  end.

(** [JSON.parse(text)] for a text that is one string literal (surrogate
    pairs apart); [None] when the text is no such literal. *)
Definition JSON_parse_string (text : string) : option string :=
  match text with
  | String c rest => if (code c =? 34)%N then json_unescape rest else None
  | EmptyString => None
  end.


(** ** URI encoding and the query-string package *)

(** The characters [encodeURIComponent] leaves alone: letters, digits and
    [- _ . ! ~ * ' ( )]. *)
Definition uri_unreserved (c : ascii) : bool :=
  let n := code c in
  ((65 <=? n) && (n <=? 90) || (97 <=? n) && (n <=? 122)
   || (48 <=? n) && (n <=? 57)
   || (n =? 45) || (n =? 95) || (n =? 46) || (n =? 33) || (n =? 126)
   || (n =? 42) || (n =? 39) || (n =? 40) || (n =? 41))%N.

Definition percent (c : ascii) : string := String "%" (hex2 true (code c)).

(** [encodeURIComponent]: every byte of the UTF-8 form of a character that
    is not unreserved becomes [%XX]. *)
Fixpoint encodeURIComponent (s : string) : string :=
  match s with
  | EmptyString => ""
  | String c rest =>
      (if uri_unreserved c then chr c else percent c) ++ encodeURIComponent rest
  end.

(** The characters of the class [[!'()*]]. *)
Definition strict_reserved (c : ascii) : bool :=
  let n := code c in
  ((n =? 33) || (n =? 39) || (n =? 40) || (n =? 41) || (n =? 42))%N.

Fixpoint replace_strict (s : string) : string :=
  match s with
  | EmptyString => ""
  | String c rest =>
      (if strict_reserved c then percent c else chr c) ++ replace_strict rest
  end.

(** strict-uri-encode, the encoder of query-string:
    [encodeURIComponent(str).replace(/[!'()*]/g, x => '%' + hex(x))]. *)
Definition strictUriEncode (s : string) : string :=
  replace_strict (encodeURIComponent s).

(** [encode(value)] of query-string with its default options
    ([encode: true], [strict: true]); the value is coerced to a string. *)
Definition qs_encode (v : value) : string := strictUriEncode (ToString v).

Fixpoint insert_sorted (k : string) (l : list string) : list string :=
  match l with
  | [] => [k]
  | k' :: rest =>
      if String.leb k k' then k :: l else k' :: insert_sorted k rest
  end.

(** [keys.sort()]: ascending order of the keys as strings. *)
Definition sort_keys (l : list string) : list string :=
  fold_right insert_sorted [] l.

(** One element of an array value under the default array format
    ([arrayFormat: 'none']): the key is repeated for each element. *)
Definition qs_array_element (key : string) (v : value) : list string :=
  match v with
  | VUndefined => []
  | VNull => [strictUriEncode key]
  | _ => [strictUriEncode key ++ "=" ++ qs_encode v]
  end.

(** One key of the object being serialized.  Any value that is not
    [undefined], [null] or an array is written [key=String(value)]: the
    package does not descend into a nested object. *)
Definition qs_pair (key : string) (v : value) : string :=
  match v with
  | VUndefined => ""
  | VNull => strictUriEncode key
  | VArr l => join_strings "&" (flat_map (qs_array_element key) l)
  | _ => strictUriEncode key ++ "=" ++ qs_encode v
  end.

Definition nonempty (s : string) : bool :=
  match s with EmptyString => false | _ => true end.

(** [stringify(object)] of the query-string package (imported at
    thecore.js:4-6), called without options: the keys are sorted, each is
    rendered by [qs_pair], empty renderings are dropped and the rest is
    joined by [&]. *)
Definition stringify (obj : value) : string :=
  if truthy obj then
    let o := own_entries obj in
    join_strings "&"
      (filter nonempty
         (map (fun k => qs_pair k (param o k)) (sort_keys (keys o))))
  else "".

(** ** Reading the count header *)

(** [s.split(sep)] for a one-character separator. *)
Fixpoint split_on (sep : ascii) (s : string) : list string :=
  match s with
  | EmptyString => [""]
  | String c rest =>
      if (code c =? code sep)%N then "" :: split_on sep rest
      else match split_on sep rest with
           | seg :: segs => String c seg :: segs
           | [] => [chr c]
           end
  end.

(** [arr.pop()] on an array of strings: its last element, [undefined] for
    the empty array. *)
Fixpoint array_pop (l : list string) : value :=
  match l with
  | [] => VUndefined
  | [s] => VStr s
  | _ :: rest => array_pop rest
  end.

Definition ascii_space (c : ascii) : bool :=
  let n := code c in
  ((9 <=? n) && (n <=? 13) || (n =? 32))%N.

(** The three-byte UTF-8 forms of the white space and line terminators
    beyond Latin-1: U+1680, U+2000..U+200A, U+2028, U+2029, U+202F, U+205F,
    U+3000 and U+FEFF. *)
Definition space3 (a b c : N) : bool :=
  ((a =? 225) && (b =? 154) && (c =? 128)
   || (a =? 226) && (b =? 128)
      && ((128 <=? c) && (c <=? 138) || (c =? 168) || (c =? 169) || (c =? 175))
   || (a =? 226) && (b =? 129) && (c =? 159)
   || (a =? 227) && (b =? 128) && (c =? 128)
   || (a =? 239) && (b =? 187) && (c =? 191))%N.

(** Leading white space removed, as [parseInt] does first. *)
Fixpoint trim_start (s : string) : string :=
  match s with
  | EmptyString => s
  | String c rest =>
      if ascii_space c then trim_start rest
      else
        match rest with
        | EmptyString => s
        | String d rest2 =>
            if ((code c =? 194) && (code d =? 160))%N then trim_start rest2
            else
              match rest2 with
              | EmptyString => s
              | String e rest3 =>
                  if space3 (code c) (code d) (code e) then trim_start rest3
                  else s
              end
        end
  end.

(** The longest prefix of decimal digits, read as a number; [None] when
    there is no digit. *)
Fixpoint digits_prefix (acc : option Z) (s : string) : option Z :=
  match s with
  | EmptyString => acc
  | String c rest =>
      if is_digit c then
        digits_prefix
          (Some (match acc with Some a => a * 10 | None => 0 end + digit_val c))
          rest
      else acc
  end.

(** [parseInt(v, 10)]: the digits are read exactly and their value is
    converted to the nearest double, as engines do for decimal digits. *)
Definition parseInt (v : value) : value :=
  let s := trim_start (ToString v) in
  let '(sign, body) :=
    match s with
    | String c rest =>
        if (code c =? 45)%N then (-1, rest)
        else if (code c =? 43)%N then (1, rest)
        else (1, s)
    | EmptyString => (1, s)
    end in
  match digits_prefix None body with
  | Some n =>
      match nearest_double n with
      | Some m => VNum (sign * m)
      | None => VInfinity (sign <? 0)
      end
  | None => VNaN
  end.


(** ** The HTTP client *)

(** What the provider hands to the client: the URL and, when it passes
    options, their [method] and [body]. *)
Record request : Type := mkRequest {
  url : string;
  method : option string;
  body : option string
}.

(** What the client resolves with: [headers.get] and the decoded body. *)
Record response : Type := mkResponse {
  headers_get : string -> option string;
  json : value
}.

(** How a call ends: an exception thrown before a promise exists, a
    rejected promise, or a promise resolved with a value. *)
Inductive outcome (A : Type) : Type :=
| Throws (e : error)
| Rejects (e : error)
| Resolves (a : A).
Arguments Throws {A} e.
Arguments Rejects {A} e.
Arguments Resolves {A} a.

(** [promise.then(f)]: a callback that throws rejects the new promise. *)
Definition then_ {A B} (p : outcome A) (f : A -> exc B) : outcome B :=
  match p with
  | Throws e => Throws e
  | Rejects e => Rejects e
  | Resolves a => match f a with inl e => Rejects e | inr b => Resolves b end
  end.

(** ** The query descriptor *)

Definition eq_key (k : string) : string := k ++ "_eq".

(** The loop [for (const [key, value] of Object.entries(object))
    filters[`${key}_eq`] = value]. *)
Definition generic_filters (entries : object) : object :=
  fold_left (fun filters kv => obj_set (eq_key (fst kv)) (snd kv) filters)
    entries [].

(** thecore.js:41-58. *)
Definition computeFilters (object page perPage field order target id : value)
  : exc value :=
  entries <- Object_entries object ;;
  let filters := generic_filters entries in
  let filters :=
    if truthy target && truthy id
    then obj_set (eq_key (ToString target)) id filters
    else filters in
  ret (VObj
         [("q", VObj (spread
                        [("s", VStr (JSON_stringify_str
                                       (VStr (ToString field ++ " " ++ ToString order))))]
                        (VObj filters)));
          ("page", page);
          ("per", perPage)]).

(** The values a [for ... of] loop visits: the elements of an array, the
    characters of a string; anything else in the model is not iterable. *)
Definition iterate (v : value) : exc (list value) :=
  match v with
  | VArr l => ret l
  | VStr s => ret (map VStr (code_points s))
  | _ => throw TypeError
  end.

(** [v.join(sep)]: only an array has the method. *)
Definition join_method (v : value) (sep : string) : exc string :=
  match v with
  | VArr l => ret (array_join sep l)
  | _ => throw TypeError
  end.

(** A request descriptor with the decoder of its response. *)
Definition plan : Type := (request * (response -> exc value))%type.

Definition GET (u : string) : request := mkRequest u None None.

(** The body of create and update: [JSON.stringify({[resource]: data})]. *)
Definition envelope (resource : string) (data : value) : string :=
  JSON_stringify_str (VObj [(resource, data)]).

(** The decoder [({json}) => ({data: json})]. *)
Definition data_of_json (r : response) : exc value :=
  ret (VObj [("data", json r)]).

(** ** The provider, thecore.js:60-259 *)

Section Provider.

Variable apiUrl : string.
Variable httpClient : request -> outcome response.
Variable countHeader : string.

(** One operation: the code before the call may throw; otherwise the
    client is called once and the decoder is chained to its promise.
    The first component lists the calls made. *)
Definition perform (p : exc plan) : list request * outcome value :=
  match p with
  | inl e => ([], Throws e)
  | inr (req, decode) => ([req], then_ (httpClient req) decode)
  end.

(** [parseInt(headers.get(countHeader).split('/').pop(), 10)]. *)
Definition count_total (r : response) : exc value :=
  match headers_get r countHeader with
  | None => throw TypeError
  | Some h => ret (parseInt (array_pop (split_on "/" h)))
  end.

(** The decoder of getList and getManyReference. *)
Definition data_and_total (r : response) : exc value :=
  total <- count_total r ;;
  ret (VObj [("data", json r); ("total", total)]).

Definition getList_plan (resource : string) (params : object) : exc plan :=
  page <- get_field (param params "paginate") "page" ;;
  perPage <- get_field (param params "paginate") "perPage" ;;
  field <- get_field (param params "sort") "field" ;;
  order <- get_field (param params "sort") "order" ;;
  query <- computeFilters (param params "filter") page perPage field order
             VUndefined VUndefined ;;
  ret (GET (apiUrl ++ "/" ++ resource ++ "?" ++ stringify query),
       data_and_total).

Definition getOne_plan (resource : string) (params : object) : exc plan :=
  ret (GET (apiUrl ++ "/" ++ resource ++ "/" ++ ToString (param params "id")),
       data_of_json).

(** The loop [for (const id of params.ids) query.push(...)]. *)
Definition id_in_segments (ids : list value) : list string :=
  fold_left
    (fun query id =>
       app query
         ["q[" ++ chr DQUOTE ++ "id_in" ++ chr DQUOTE ++ "][]=" ++ ToString id])
    ids [].

Definition getMany_plan (resource : string) (params : object) : exc plan :=
  ids <- iterate (param params "ids") ;;
  ret (GET (apiUrl ++ "/" ++ resource ++ "?"
            ++ join_strings "&" (id_in_segments ids)),
       data_of_json).

Definition getManyReference_plan (resource : string) (params : object)
  : exc plan :=
  page <- get_field (param params "pagination") "page" ;;
  perPage <- get_field (param params "pagination") "perPage" ;;
  field <- get_field (param params "sort") "field" ;;
  order <- get_field (param params "sort") "order" ;;
  query <- computeFilters (param params "filter") page perPage field order
             (param params "target") (param params "id") ;;
  ret (GET (apiUrl ++ "/" ++ resource ++ "?" ++ stringify query),
       data_and_total).

(** The decoder of create: [{data: {...params.data, id: json.id}}]. *)
Definition created (data : value) (r : response) : exc value :=
  id <- get_field (json r) "id" ;;
  ret (VObj [("data", VObj (obj_set "id" id (spread [] data)))]).

Definition create_plan (resource : string) (params : object) : exc plan :=
  ret (mkRequest (apiUrl ++ "/" ++ resource) (Some "POST")
         (Some (envelope resource (param params "data"))),
       created (param params "data")).

Definition update_plan (resource : string) (params : object) : exc plan :=
  ret (mkRequest
         (apiUrl ++ "/" ++ resource ++ "/" ++ ToString (param params "id"))
         (Some "PUT")
         (Some (envelope resource (param params "data"))),
       data_of_json).

(** The query of updateMany and deleteMany:
    [{ids: JSON.stringify(params.ids.join(","))}]. *)
Definition ids_query (params : object) : exc value :=
  joined <- join_method (param params "ids") "," ;;
  ret (VObj [("ids", VStr (JSON_stringify_str (VStr joined)))]).

Definition updateMany_plan (resource : string) (params : object) : exc plan :=
  query <- ids_query params ;;
  ret (mkRequest (apiUrl ++ "/" ++ resource ++ "/multi?" ++ stringify query)
         (Some "PUT")
         (Some (envelope resource (param params "data"))),
       data_of_json).

Definition delete_plan (resource : string) (params : object) : exc plan :=
  ret (mkRequest
         (apiUrl ++ "/" ++ resource ++ "/" ++ ToString (param params "id"))
         (Some "DELETE") None,
       data_of_json).

Definition deleteMany_plan (resource : string) (params : object) : exc plan :=
  query <- ids_query params ;;
  ret (mkRequest (apiUrl ++ "/" ++ resource ++ "/multi?" ++ stringify query)
         (Some "DELETE") None,
       data_of_json).

Definition getList r p := perform (getList_plan r p).
Definition getOne r p := perform (getOne_plan r p).
Definition getMany r p := perform (getMany_plan r p).
Definition getManyReference r p := perform (getManyReference_plan r p).
Definition create r p := perform (create_plan r p).
Definition update r p := perform (update_plan r p).
Definition updateMany r p := perform (updateMany_plan r p).
Definition delete r p := perform (delete_plan r p).
Definition deleteMany r p := perform (deleteMany_plan r p).

End Provider.

(** The operations of the object the provider returns. *)
Inductive operation : Type :=
| GetList | GetOne | GetMany | GetManyReference
| Create | Update | UpdateMany | Delete | DeleteMany.

Definition operation_plan (apiUrl countHeader : string) (op : operation)
  : string -> object -> exc plan :=
  match op with
  | GetList => getList_plan apiUrl countHeader
  | GetOne => getOne_plan apiUrl
  | GetMany => getMany_plan apiUrl
  | GetManyReference => getManyReference_plan apiUrl countHeader
  | Create => create_plan apiUrl
  | Update => update_plan apiUrl
  | UpdateMany => updateMany_plan apiUrl
  | Delete => delete_plan apiUrl
  | DeleteMany => deleteMany_plan apiUrl
  end.


(** The provider object: one entry per operation. *)
Definition provider (apiUrl : string) (httpClient : request -> outcome response)
  (countHeader : string) (op : operation)
  : string -> object -> list request * outcome value :=
  match op with
  | GetList => getList apiUrl httpClient countHeader
  | GetOne => getOne apiUrl httpClient
  | GetMany => getMany apiUrl httpClient
  | GetManyReference => getManyReference apiUrl httpClient countHeader
  | Create => create apiUrl httpClient
  | Update => update apiUrl httpClient
  | UpdateMany => updateMany apiUrl httpClient
  | Delete => delete apiUrl httpClient
  | DeleteMany => deleteMany apiUrl httpClient
  end.

(** The decoder each operation chains to the promise of the client. *)
Definition decoder (countHeader : string) (op : operation) (params : object)
  : response -> exc value :=
  match op with
  | GetList | GetManyReference => data_and_total countHeader
  | Create => created (param params "data")
  | _ => data_of_json
  end.

(** ** Reading a URL back *)

(** The vocabulary of the statements about URLs: the parameters a server
    finds in the query string of a URL, which ends where the fragment
    begins and in which [+] stands for a space. *)

(** [decodeURIComponent]; [None] for a malformed escape. *)
Fixpoint decodeURIComponent (s : string) : option string :=
  match s with
  | EmptyString => Some ""
  | String c rest =>
      if (code c =? 37)%N then
        match rest with
        | String h1 (String h2 rest2) =>
            match hex_val h1, hex_val h2, decodeURIComponent rest2 with
            | Some a, Some b, Some t => Some (String (ascii_of_N (a * 16 + b)) t)
            | _, _, _ => None
            end
        | _ => None
        end
      else
        match decodeURIComponent rest with
        | Some t => Some (String c t)
        | None => None
        end
  end.

Fixpoint plus_to_space (s : string) : string :=
  match s with
  | EmptyString => ""
  | String c rest =>
      String (if (code c =? 43)%N then " "%char else c) (plus_to_space rest)
  end.

(** Form decoding of a name or a value: [+] to space, then the percent
    escapes; text with a malformed escape is kept as it is. *)
Definition decoded (s : string) : string :=
  match decodeURIComponent (plus_to_space s) with
  | Some t => t
  | None => plus_to_space s
  end.

(** The text before and after the first occurrence of [sep]. *)
Fixpoint split_first (sep : ascii) (s : string) : string * option string :=
  match s with
  | EmptyString => ("", None)
  | String c rest =>
      if (code c =? code sep)%N then ("", Some rest)
      else let '(a, b) := split_first sep rest in (String c a, b)
  end.

(** The query of a URL: what lies between the first [?] and the
    fragment. *)
Definition query_of_url (u : string) : string :=
  match snd (split_first "?" (fst (split_first "#" u))) with
  | Some q => q
  | None => ""
  end.

(** The decoded [name=value] pairs of the query string, in order. *)
Definition query_params (u : string) : list (string * string) :=
  map (fun seg =>
         let '(name, v) := split_first "=" seg in
         (decoded name, match v with Some t => decoded t | None => "" end))
    (filter nonempty (split_on "&" (query_of_url u))).

Fixpoint assoc (name : string) (l : list (string * string)) : option string :=
  match l with
  | [] => None
  | (k, v) :: rest => if (k =? name)%string then Some v else assoc name rest
  end.

(** The value of the parameter [name] in the URL [u], if it has one. *)
Definition url_param (u name : string) : option string :=
  assoc name (query_params u).

(** ** Vocabulary of the count header *)

Fixpoint all_digits (s : string) : bool :=
  match s with
  | EmptyString => true
  | String c rest => is_digit c && all_digits rest
  end.

(** The number a string of decimal digits denotes. *)
Fixpoint decimal_from (acc : Z) (s : string) : Z :=
  match s with
  | EmptyString => acc
  | String c rest => decimal_from (acc * 10 + digit_val c) rest
  end.

Definition decimal_value (s : string) : Z := decimal_from 0 s.

Definition is_letter (c : ascii) : bool :=
  let n := code c in
  ((65 <=? n) && (n <=? 90) || (97 <=? n) && (n <=? 122))%N.

(** A segment that shows no number: empty, or opening with a letter. *)
Definition non_numeric (s : string) : bool :=
  match s with
  | EmptyString => true
  | String c _ => is_letter c
  end.

(** ** Vocabulary of the query descriptor *)

(** The keys of the filters object all carry the [_eq] suffix. *)
Definition eq_keyed (o : object) : Prop :=
  forall k, In k (keys o) -> exists a, k = eq_key a.

(** The filters of a call: the renamed entries, then the reference
    constraint when both its parts are truthy. *)
Definition filters_of (entries : object) (target id : value) : object :=
  if truthy target && truthy id
  then obj_set (eq_key (ToString target)) id (generic_filters entries)
  else generic_filters entries.

(** The sort entry: the JSON text of the string [field order]. *)
Definition sort_param (field order : value) : value :=
  VStr (json_quote (ToString field ++ " " ++ ToString order)).

(** The segment getMany writes for one id. *)
Definition id_in_segment (id : value) : string :=
  "q[" ++ chr DQUOTE ++ "id_in" ++ chr DQUOTE ++ "][]=" ++ ToString id.

(** The text after the last [/] of a header value. *)
Definition trailing_segment (h : string) : string := last (split_on "/" h) "".

(** ** Sample data *)

Module Sample.

Definition api : string := "http://my.api.url/api/v2".

(** A client that answers every request with the same headers and body. *)
Definition answering (header : option string) (body : value)
  : request -> outcome response :=
  fun _ => Resolves (mkResponse (fun _ => header) body).

(** A client whose every call is rejected with [e]. *)
Definition failing (e : error) : request -> outcome response :=
  fun _ => Rejects e.

Definition ids : list value := [VNum 123; VNum 124; VNum 125].

Definition title_asc : value :=
  VObj [("field", VStr "title"); ("order", VStr "ASC")].

Definition email_asc : value :=
  VObj [("field", VStr "email"); ("order", VStr "ASC")].

Definition first_page : value :=
  VObj [("page", VNum 1); ("perPage", VNum 10)].

(** Parameters in the shape getList reads. *)
Definition list_params : object :=
  [("paginate", first_page); ("sort", title_asc);
   ("filter", VObj [("author_id", VNum 12)])].

(** Parameters in the shape getManyReference reads. *)
Definition reference_params (id : value) : object :=
  [("pagination", first_page); ("sort", email_asc); ("filter", VObj []);
   ("target", VStr "post_id"); ("id", id)].

Definition many_params : object :=
  [("ids", VArr ids); ("data", VObj [("title", VStr "hello")])].

Definition create_params : object :=
  [("data", VObj [("title", VStr "hello")])].

End Sample.

(** ** Vocabulary of the calls *)

Definition nullish (v : value) : bool :=
  match v with VUndefined | VNull => true | _ => false end.

(** What an operation needs of its parameters to get as far as calling
    the client: the listing operations destructure their page and sort
    and enumerate their filter, getMany iterates [ids], updateMany and
    deleteMany call [ids.join]; the others read nothing that can throw. *)
Definition ready (op : operation) (params : object) : bool :=
  match op with
  | GetList =>
      negb (nullish (param params "paginate"))
      && negb (nullish (param params "sort"))
      && negb (nullish (param params "filter"))
  | GetManyReference =>
      negb (nullish (param params "pagination"))
      && negb (nullish (param params "sort"))
      && negb (nullish (param params "filter"))
  | GetMany =>
      match param params "ids" with VArr _ | VStr _ => true | _ => false end
  | UpdateMany | DeleteMany =>
      match param params "ids" with VArr _ => true | _ => false end
  | GetOne | Create | Update | Delete => true
  end.

(** The [method] option of each operation; none for the four reads. *)
Definition method_of (op : operation) : option string :=
  match op with
  | GetList | GetOne | GetMany | GetManyReference => None
  | Create => Some "POST"
  | Update | UpdateMany => Some "PUT"
  | Delete | DeleteMany => Some "DELETE"
  end.

(** The [body] option of each operation. *)
Definition body_of (op : operation) (resource : string) (params : object)
  : option string :=
  match op with
  | Create | Update | UpdateMany => Some (envelope resource (param params "data"))
  | _ => None
  end.

(** [s] has no occurrence of [c]. *)
Fixpoint no_char (c : ascii) (s : string) : bool :=
  match s with
  | EmptyString => true
  | String x rest => negb (code x =? code c)%N && no_char c rest
  end.

(** The characters every URI leaves alone: letters, digits and
    [- _ . ~]. *)
Definition plain_char (c : ascii) : bool :=
  let n := code c in
  ((65 <=? n) && (n <=? 90) || (97 <=? n) && (n <=? 122)
   || (48 <=? n) && (n <=? 57)
   || (n =? 45) || (n =? 95) || (n =? 46) || (n =? 126))%N.

(** Text that passes through a query string as it is. *)
Fixpoint plain_text (s : string) : bool :=
  match s with
  | EmptyString => true
  | String c rest => plain_char c && plain_text rest
  end.

(** What [encodeURIComponent] writes for one character. *)
Definition uri_piece (c : ascii) : string :=
  if uri_unreserved c then chr c else percent c.

(** The name of the parameter getMany repeats. *)
Definition id_in_name : string :=
  "q[" ++ chr DQUOTE ++ "id_in" ++ chr DQUOTE ++ "][]".

(** The field of the parameters a listing operation takes its page from. *)
Definition page_field (op : operation) : string :=
  match op with GetList => "paginate" | _ => "pagination" end.

(** * Properties *)

(** ** Strings *)

Lemma append_nil_r (s : string) : s ++ "" = s.
Proof. induction s as [|c s IH]; simpl; [reflexivity | now rewrite IH]. Qed.

Lemma append_assoc (a b c : string) : (a ++ b) ++ c = a ++ (b ++ c).
Proof. induction a as [|x a IH]; simpl; [reflexivity | now rewrite IH]. Qed.

Lemma length_append (a b : string) :
  String.length (a ++ b) = (String.length a + String.length b)%nat.
Proof. induction a as [|x a IH]; simpl; [reflexivity | now rewrite IH]. Qed.

Lemma append_inv_tail (a b t : string) : a ++ t = b ++ t -> a = b.
Proof.
  revert b; induction a as [|x a IH]; intros [|y b] H; simpl in H.
  - reflexivity.
  - apply (f_equal String.length) in H; simpl in H.
    rewrite length_append in H; lia.
  - apply (f_equal String.length) in H; simpl in H.
    rewrite length_append in H; lia.
  - injection H as -> H; f_equal; now apply IH.
Qed.

Lemma eq_key_inj (a b : string) : eq_key a = eq_key b -> a = b.
Proof. apply append_inv_tail. Qed.

Lemma eq_key_not_s (k : string) : eq_key k <> "s".
Proof.
  intros H; apply (f_equal String.length) in H.
  unfold eq_key in H; rewrite length_append in H; simpl in H; lia.
Qed.

(** ** Objects *)

Lemma lookup_obj_set_same (k : string) (v : value) (o : object) :
  lookup k (obj_set k v o) = Some v.
Proof.
  induction o as [|[k' v'] o IH]; simpl.
  - now rewrite String.eqb_refl.
  - destruct (k' =? k)%string eqn:E; simpl.
    + now rewrite String.eqb_refl.
    + now rewrite E.
Qed.

Lemma lookup_obj_set_other (k k' : string) (v : value) (o : object) :
  k <> k' -> lookup k' (obj_set k v o) = lookup k' o.
Proof.
  intros Hne; induction o as [|[k0 v0] o IH]; simpl.
  - destruct (k =? k')%string eqn:E; [|reflexivity].
    apply String.eqb_eq in E; contradiction.
  - destruct (k0 =? k)%string eqn:E; simpl.
    + apply String.eqb_eq in E; subst k0.
      destruct (k =? k')%string eqn:E'; [|reflexivity].
      apply String.eqb_eq in E'; contradiction.
    + now rewrite IH.
Qed.

Lemma obj_set_fresh (k : string) (v : value) (o : object) :
  ~ In k (keys o) -> obj_set k v o = (o ++ [(k, v)])%list.
Proof.
  induction o as [|[k' v'] o IH]; simpl; intros H.
  - reflexivity.
  - destruct (k' =? k)%string eqn:E.
    + apply String.eqb_eq in E; exfalso; auto.
    + rewrite IH; auto.
Qed.

(** Assigning properties with fresh, distinct keys appends them in order. *)
Lemma fold_set_fresh (f : string -> string) (es base : object) :
  (forall a b, f a = f b -> a = b) ->
  NoDup (keys es) ->
  (forall k, In k (keys es) -> ~ In (f k) (keys base)) ->
  fold_left (fun o kv => obj_set (f (fst kv)) (snd kv) o) es base
  = (base ++ map (fun kv => (f (fst kv), snd kv)) es)%list.
Proof.
  intros Hinj; revert base; induction es as [|[k v] es IH]; intros base Hnd Hfresh;
    simpl.
  - now rewrite app_nil_r.
  - simpl in Hnd; inversion Hnd as [|? ? Hk Hnd']; subst.
    rewrite obj_set_fresh by (apply Hfresh; simpl; auto).
    rewrite IH; auto.
    + now rewrite <- app_assoc.
    + intros k' Hin Hin'.
      unfold keys in Hin'; rewrite map_app, in_app_iff in Hin'; simpl in Hin'.
      destruct Hin' as [Hin' | [Heq | []]].
      * apply (Hfresh k'); simpl; auto.
      * apply Hinj in Heq; subst k'. contradiction.
Qed.

Lemma obj_set_keys (k : string) (v : value) (o : object) :
  forall k', In k' (keys (obj_set k v o)) <-> k' = k \/ In k' (keys o).
Proof.
  induction o as [|[k0 v0] o IH]; simpl; intros k'.
  - intuition.
  - destruct (k0 =? k)%string eqn:E; simpl.
    + apply String.eqb_eq in E; subst; intuition.
    + rewrite IH; intuition.
Qed.

Lemma obj_set_NoDup (k : string) (v : value) (o : object) :
  NoDup (keys o) -> NoDup (keys (obj_set k v o)).
Proof.
  induction o as [|[k0 v0] o IH]; simpl; intros H.
  - constructor; [intros [] | constructor].
  - inversion H as [|? ? Hk Hnd]; subst.
    destruct (k0 =? k)%string eqn:E; simpl.
    + apply String.eqb_eq in E; subst; now constructor.
    + constructor; [|now apply IH].
      rewrite obj_set_keys; intros [-> | Hin]; [|contradiction].
      now rewrite String.eqb_refl in E.
Qed.

Lemma obj_set_eq_keyed (a : string) (v : value) (o : object) :
  eq_keyed o -> eq_keyed (obj_set (eq_key a) v o).
Proof.
  intros H k Hin; apply obj_set_keys in Hin as [-> | Hin]; eauto.
Qed.

Lemma fold_filters_inv (es base : object) :
  NoDup (keys base) -> eq_keyed base ->
  let r := fold_left (fun f kv => obj_set (eq_key (fst kv)) (snd kv) f) es base in
  NoDup (keys r) /\ eq_keyed r.
Proof.
  revert base; induction es as [|[k v] es IH]; intros base Hnd Hk; simpl.
  - auto.
  - apply IH; [now apply obj_set_NoDup | now apply obj_set_eq_keyed].
Qed.

Lemma generic_filters_inv (es : object) :
  NoDup (keys (generic_filters es)) /\ eq_keyed (generic_filters es).
Proof.
  apply fold_filters_inv; [constructor | intros k []].
Qed.

(** On an object, whose keys are distinct, the loop renames each key. *)
Lemma generic_filters_map (es : object) :
  NoDup (keys es) ->
  generic_filters es = map (fun kv => (eq_key (fst kv), snd kv)) es.
Proof.
  intros H; unfold generic_filters.
  rewrite (fold_set_fresh eq_key); auto using eq_key_inj.
Qed.

(** Spreading the filters after [s] keeps [s] first. *)
Lemma spread_after_s (v : value) (filters : object) :
  NoDup (keys filters) -> eq_keyed filters ->
  spread [("s", v)] (VObj filters) = ("s", v) :: filters.
Proof.
  intros Hnd Hk; unfold spread; simpl.
  rewrite (fold_set_fresh (fun k => k)); auto.
  - simpl; f_equal. rewrite <- (map_id filters) at 2.
    apply map_ext; now intros [k w].
  - intros k Hin [Heq | []]. destruct (Hk k Hin) as [a ->].
    now apply (eq_key_not_s a).
Qed.

Lemma spread_empty (d : object) :
  NoDup (keys d) -> spread [] (VObj d) = d.
Proof.
  intros Hnd; unfold spread; simpl.
  rewrite (fold_set_fresh (fun k => k)); auto.
  simpl. rewrite <- (map_id d) at 2. apply map_ext; now intros [k w].
Qed.

Lemma filters_of_inv (entries : object) (target id : value) :
  NoDup (keys (filters_of entries target id))
  /\ eq_keyed (filters_of entries target id).
Proof.
  unfold filters_of; destruct (generic_filters_inv entries) as [Hnd Hk].
  destruct (truthy target && truthy id); split; auto.
  - now apply obj_set_NoDup.
  - now apply obj_set_eq_keyed.
Qed.

(** The descriptor [computeFilters] returns, for every input it accepts. *)
Lemma computeFilters_shape (object page perPage field order target id : value)
      (entries : list (string * value)) :
  Object_entries object = inr entries ->
  computeFilters object page perPage field order target id
  = inr (VObj [("q", VObj (("s", sort_param field order)
                            :: filters_of entries target id));
               ("page", page); ("per", perPage)]).
Proof.
  intros He; unfold computeFilters; rewrite He; simpl.
  destruct (filters_of_inv entries target id) as [Hnd Hk].
  unfold ret; do 3 f_equal. f_equal. f_equal.
  fold (filters_of entries target id).
  now rewrite spread_after_s.
Qed.

Lemma computeFilters_throws (object page perPage field order target id : value) :
  Object_entries object = inl TypeError ->
  computeFilters object page perPage field order target id = inl TypeError.
Proof. intros He; unfold computeFilters; now rewrite He. Qed.

Lemma Object_entries_cases (v : value) :
  Object_entries v = inl TypeError \/ Object_entries v = inr (own_entries v).
Proof. destruct v; simpl; auto. Qed.

(** ** JSON strings *)

Lemma json_unescape_char (c : ascii) (t : string) :
  json_unescape (json_escape_char c ++ t)
  = match json_unescape t with
    | Some r => Some (String c r)
    | None => None
    end.
Proof.
  destruct c as [[] [] [] [] [] [] [] []]; reflexivity.
Qed.

Lemma json_unescape_escape (s : string) :
  json_unescape (json_escape s ++ chr DQUOTE) = Some s.
Proof.
  induction s as [|c s IH]; simpl.
  - reflexivity.
  - rewrite append_assoc, json_unescape_char. now rewrite IH.
Qed.

(** What [JSON.stringify] writes for a string, [JSON.parse] reads back. *)
Lemma JSON_parse_quote (s : string) : JSON_parse_string (json_quote s) = Some s.
Proof. unfold json_quote; simpl. apply json_unescape_escape. Qed.

(** ** The serializer *)

(** The query of updateMany and deleteMany on the wire. *)
Lemma stringify_ids (t : string) :
  stringify (VObj [("ids", VStr t)]) = "ids=" ++ strictUriEncode t.
Proof. reflexivity. Qed.

(** The nested [q] object reaches the wire as [String(q)], whatever it
    holds. *)
Lemma stringify_query_opaque (q : object) (page perPage : value) :
  stringify (VObj [("q", VObj q); ("page", page); ("per", perPage)])
  = stringify (VObj [("q", VObj []); ("page", page); ("per", perPage)]).
Proof. reflexivity. Qed.

(** ** The count header *)

Lemma split_on_nonempty (sep : ascii) (s : string) : split_on sep s <> [].
Proof.
  destruct s as [|c s]; simpl; [discriminate|].
  destruct (code c =? code sep)%N; [discriminate|].
  destruct (split_on sep s); discriminate.
Qed.

Lemma split_on_app (sep : ascii) (a b : string) :
  split_on sep (a ++ String sep b) = (split_on sep a ++ split_on sep b)%list.
Proof.
  induction a as [|c a IH]; simpl.
  - now rewrite N.eqb_refl.
  - destruct (code c =? code sep)%N; rewrite IH; [reflexivity|].
    pose proof (split_on_nonempty sep a) as Hne.
    destruct (split_on sep a); [contradiction | reflexivity].
Qed.

Lemma split_on_digits (s : string) :
  all_digits s = true -> split_on "/" s = [s].
Proof.
  induction s as [|c s IH]; intros H; [reflexivity|].
  simpl in H; apply andb_prop in H as [Hc Hs].
  assert (Hne : (code c =? code "/")%N = false).
  { apply N.eqb_neq. unfold is_digit in Hc.
    apply andb_prop in Hc as [Hlo _]. apply N.leb_le in Hlo.
    change (code "/") with 47%N. lia. }
  change (split_on "/" (String c s))
    with (if (code c =? code "/")%N then "" :: split_on "/" s
          else match split_on "/" s with
               | seg :: segs => String c seg :: segs
               | [] => [chr c]
               end).
  now rewrite Hne, IH.
Qed.

Lemma array_pop_last (l : list string) :
  l <> [] -> array_pop l = VStr (last l "").
Proof.
  induction l as [|s l IH]; intros H; [contradiction|].
  destruct l as [|s' l]; [reflexivity|].
  change (array_pop (s :: s' :: l)) with (array_pop (s' :: l)).
  change (last (s :: s' :: l) "") with (last (s' :: l) "").
  apply IH; discriminate.
Qed.

Lemma array_pop_split (h : string) :
  array_pop (split_on "/" h) = VStr (trailing_segment h).
Proof. apply array_pop_last, split_on_nonempty. Qed.

Lemma trailing_segment_digits (pre ds : string) :
  all_digits ds = true -> trailing_segment (pre ++ "/" ++ ds) = ds.
Proof.
  intros H; unfold trailing_segment.
  change (pre ++ "/" ++ ds) with (pre ++ String "/" ds).
  rewrite split_on_app, (split_on_digits ds) by assumption.
  now rewrite last_last.
Qed.

(** A string that opens with an ASCII character other than white space
    has no leading white space to drop. *)
Lemma trim_start_head (c : ascii) (rest : string) :
  ascii_space c = false -> (code c <? 128)%N = true ->
  trim_start (String c rest) = String c rest.
Proof.
  intros Hs Hc; apply N.ltb_lt in Hc; simpl; rewrite Hs.
  destruct rest as [|d rest2]; [reflexivity|].
  replace (code c =? 194)%N with false by (symmetry; apply N.eqb_neq; lia).
  simpl. destruct rest2 as [|e rest3]; [reflexivity|].
  unfold space3.
  replace (code c =? 225)%N with false by (symmetry; apply N.eqb_neq; lia).
  replace (code c =? 226)%N with false by (symmetry; apply N.eqb_neq; lia).
  replace (code c =? 227)%N with false by (symmetry; apply N.eqb_neq; lia).
  replace (code c =? 239)%N with false by (symmetry; apply N.eqb_neq; lia).
  reflexivity.
Qed.

Lemma digits_prefix_all (a : Z) (s : string) :
  all_digits s = true -> digits_prefix (Some a) s = Some (decimal_from a s).
Proof.
  revert a; induction s as [|c s IH]; simpl; intros a H; [reflexivity|].
  apply andb_prop in H as [Hc Hs]. rewrite Hc. now apply IH.
Qed.

(** [parseInt] of a string that opens with a digit: the value of its
    leading digits, as a number. *)
Lemma parseInt_unsigned (c : ascii) (rest : string) :
  is_digit c = true ->
  parseInt (VStr (String c rest))
  = match digits_prefix None (String c rest) with
    | Some n => Number_of_Z n
    | None => VNaN
    end.
Proof.
  intros Hc.
  assert (Hb : (48 <= code c <= 57)%N).
  { unfold is_digit in Hc; apply andb_prop in Hc as [H1 H2].
    apply N.leb_le in H1; apply N.leb_le in H2; lia. }
  unfold parseInt. cbn [ToString].
  rewrite trim_start_head.
  - replace (code c =? 45)%N with false by (symmetry; apply N.eqb_neq; lia).
    replace (code c =? 43)%N with false by (symmetry; apply N.eqb_neq; lia).
    destruct (digits_prefix None (String c rest)) as [n|]; [|reflexivity].
    unfold Number_of_Z. destruct (nearest_double n) as [m|]; [|reflexivity].
    now rewrite Z.mul_1_l.
  - unfold ascii_space.
    replace (code c <=? 13)%N with false by (symmetry; apply N.leb_gt; lia).
    replace (code c =? 32)%N with false by (symmetry; apply N.eqb_neq; lia).
    now rewrite andb_false_r.
  - apply N.ltb_lt; lia.
Qed.

(** Up to 2^53 the number is the integer itself. *)
Lemma Number_of_Z_exact (n : Z) : n <= 2 ^ 53 -> Number_of_Z n = VNum n.
Proof.
  intros H; unfold Number_of_Z, nearest_double.
  apply Z.leb_le in H. now rewrite H.
Qed.

(** [parseInt] of a string of digits is the number the digits denote. *)
Lemma parseInt_digits (ds : string) :
  ds <> "" -> all_digits ds = true ->
  parseInt (VStr ds) = Number_of_Z (decimal_value ds).
Proof.
  destruct ds as [|c rest]; [congruence|]; intros _ H.
  simpl in H; apply andb_prop in H as [Hc Hrest].
  rewrite parseInt_unsigned by assumption.
  cbn [digits_prefix]. rewrite Hc, digits_prefix_all by assumption.
  reflexivity.
Qed.

(** [parseInt] of a segment that shows no number is [NaN]. *)
Lemma parseInt_non_numeric (s : string) :
  non_numeric s = true -> parseInt (VStr s) = VNaN.
Proof.
  destruct s as [|c rest]; [reflexivity|]; simpl; intros H.
  assert (Hb : (65 <= code c <= 122)%N).
  { unfold is_letter in H. apply orb_prop in H as [H | H];
      apply andb_prop in H as [H1 H2];
      apply N.leb_le in H1; apply N.leb_le in H2; lia. }
  unfold parseInt. cbn [ToString].
  rewrite trim_start_head.
  - replace (code c =? 45)%N with false by (symmetry; apply N.eqb_neq; lia).
    replace (code c =? 43)%N with false by (symmetry; apply N.eqb_neq; lia).
    cbn [digits_prefix]. unfold is_digit.
    replace (code c <=? 57)%N with false by (symmetry; apply N.leb_gt; lia).
    now rewrite andb_false_r.
  - unfold ascii_space.
    replace (code c <=? 13)%N with false by (symmetry; apply N.leb_gt; lia).
    replace (code c =? 32)%N with false by (symmetry; apply N.eqb_neq; lia).
    now rewrite andb_false_r.
  - apply N.ltb_lt; lia.
Qed.

(** ** Calls and their decoders *)

Lemma provider_perform (apiUrl : string) (httpClient : request -> outcome response)
      (countHeader : string) (op : operation) (resource : string) (params : object) :
  provider apiUrl httpClient countHeader op resource params
  = perform httpClient (operation_plan apiUrl countHeader op resource params).
Proof. destruct op; reflexivity. Qed.

Ltac split_binds H :=
  repeat match type of H with
         | context [bind ?m _] =>
             let E := fresh "E" in
             destruct m eqn:E; cbn [bind] in H
         end;
  unfold ret in H; try discriminate H.

Ltac unfold_plans H :=
  unfold getList_plan, getOne_plan, getMany_plan, getManyReference_plan,
    create_plan, update_plan, updateMany_plan, delete_plan, deleteMany_plan in H.

(** Every operation chains the decoder of its kind to the one request it
    plans. *)
Lemma operation_plan_decoder (apiUrl countHeader : string) (op : operation)
      (resource : string) (params : object) (req : request)
      (dec : response -> exc value) :
  operation_plan apiUrl countHeader op resource params = inr (req, dec) ->
  dec = decoder countHeader op params.
Proof.
  intros H; destruct op; cbn [operation_plan decoder] in *; unfold_plans H;
    split_binds H; now injection H as _ <-.
Qed.

Lemma perform_calls (httpClient : request -> outcome response) (p : exc plan)
      (req : request) :
  In req (fst (perform httpClient p)) ->
  exists dec, p = inr (req, dec)
              /\ perform httpClient p = ([req], then_ (httpClient req) dec).
Proof.
  destruct p as [e | [req' dec]]; simpl; [intros [] | intros [<- | []]].
  now exists dec.
Qed.

Lemma perform_single (httpClient : request -> outcome response) (p : exc plan)
      (req : request) :
  fst (perform httpClient p) = [req] ->
  exists dec, p = inr (req, dec)
              /\ perform httpClient p = ([req], then_ (httpClient req) dec).
Proof.
  intros H; apply perform_calls; rewrite H; now left.
Qed.

(** ** updateMany and deleteMany *)

Lemma ids_query_array (params : object) (ids : list value) :
  param params "ids" = VArr ids ->
  ids_query params = inr (VObj [("ids", VStr (json_quote (array_join "," ids)))]).
Proof. intros H; unfold ids_query; now rewrite H. Qed.

(** C1, as the code has it: updateMany and deleteMany join the ids with
    commas, write the joined text as a JSON string and URL-encode it, so
    they target [apiUrl/resource/multi?ids=] followed by the encoded
    quoted list; each issues that one request and resolves with the body
    of the response, unchanged, under [data]. *)
Theorem updateMany_deleteMany_request
        (apiUrl : string) (httpClient : request -> outcome response)
        (resource : string) (params : object) (ids : list value) :
  param params "ids" = VArr ids ->
  let target :=
    apiUrl ++ "/" ++ resource ++ "/multi?ids="
    ++ strictUriEncode (json_quote (array_join "," ids)) in
  let put :=
    mkRequest target (Some "PUT") (Some (envelope resource (param params "data"))) in
  let del := mkRequest target (Some "DELETE") None in
  fst (updateMany apiUrl httpClient resource params) = [put]
  /\ fst (deleteMany apiUrl httpClient resource params) = [del]
  /\ (forall resp, httpClient put = Resolves resp ->
        snd (updateMany apiUrl httpClient resource params)
        = Resolves (VObj [("data", json resp)]))
  /\ (forall resp, httpClient del = Resolves resp ->
        snd (deleteMany apiUrl httpClient resource params)
        = Resolves (VObj [("data", json resp)])).
Proof.
  intros Hids target put del.
  unfold updateMany, deleteMany, updateMany_plan, deleteMany_plan.
  rewrite (ids_query_array params ids Hids); cbn [bind ret perform fst snd].
  repeat split; try reflexivity; intros resp Hresp.
  - change (then_ (httpClient put) data_of_json
            = Resolves (VObj [("data", json resp)])).
    now rewrite Hresp.
  - change (then_ (httpClient del) data_of_json
            = Resolves (VObj [("data", json resp)])).
    now rewrite Hresp.
Qed.

Lemma updateMany_deleteMany_request_witness :
  param Sample.many_params "ids" = VArr Sample.ids
  /\ map url (fst (updateMany Sample.api (Sample.answering None (VArr Sample.ids))
                     "posts" Sample.many_params))
     = ["http://my.api.url/api/v2/posts/multi?ids=%22123%2C124%2C125%22"]
  /\ snd (deleteMany Sample.api (Sample.answering None (VArr Sample.ids))
            "posts" Sample.many_params)
     = Resolves (VObj [("data", VArr Sample.ids)]).
Proof.
  split; [reflexivity|].
  destruct (updateMany_deleteMany_request Sample.api
              (Sample.answering None (VArr Sample.ids)) "posts"
              Sample.many_params Sample.ids eq_refl) as (Hput & _ & _ & Hdel).
  split.
  - rewrite Hput; reflexivity.
  - exact (Hdel (mkResponse (fun _ => None) (VArr Sample.ids)) eq_refl).
Defined.

(** C1, as stated, fails: for the ids 123, 124, 125 neither operation
    targets [multi?ids=%5B123%2C124%2C125%5D]; the parameter holds the
    quoted text of the joined ids, not a JSON array. *)
Lemma updateMany_url_is_no_json_array :
  map url (fst (updateMany Sample.api (Sample.answering None (VArr Sample.ids))
                  "posts" Sample.many_params))
  <> ["http://my.api.url/api/v2/posts/multi?ids=%5B123%2C124%2C125%5D"]
  /\ map url (fst (deleteMany Sample.api (Sample.answering None (VArr Sample.ids))
                     "posts" Sample.many_params))
     <> ["http://my.api.url/api/v2/posts/multi?ids=%5B123%2C124%2C125%5D"]
  /\ url_param "http://my.api.url/api/v2/posts/multi?ids=%22123%2C124%2C125%22" "ids"
     = Some (json_quote "123,124,125").
Proof.
  repeat split; try (vm_compute; intros H; discriminate H).
Qed.

(** ** The total of getList and getManyReference *)

Lemma data_and_total_cases (countHeader : string) (resp : response) :
  data_and_total countHeader resp
  = match headers_get resp countHeader with
    | None => inl TypeError
    | Some h =>
        inr (VObj [("data", json resp);
                   ("total", parseInt (VStr (trailing_segment h)))])
    end.
Proof.
  unfold data_and_total, count_total.
  destruct (headers_get resp countHeader) as [h|]; [|reflexivity].
  now rewrite array_pop_split.
Qed.

(** What a listing operation returns once its one request is answered. *)
Lemma listing_outcome (apiUrl : string) (httpClient : request -> outcome response)
      (countHeader : string) (op : operation) (resource : string)
      (params : object) (req : request) (resp : response) :
  op = GetList \/ op = GetManyReference ->
  fst (provider apiUrl httpClient countHeader op resource params) = [req] ->
  httpClient req = Resolves resp ->
  snd (provider apiUrl httpClient countHeader op resource params)
  = match headers_get resp countHeader with
    | None => Rejects TypeError
    | Some h =>
        Resolves (VObj [("data", json resp);
                        ("total", parseInt (VStr (trailing_segment h)))])
    end.
Proof.
  intros Hop Hcalls Hresp. rewrite provider_perform in *.
  destruct (perform_single _ _ _ Hcalls) as (dec & Hplan & Hrun).
  rewrite Hrun; cbn [snd]. rewrite Hresp; cbn [then_].
  rewrite (operation_plan_decoder _ _ _ _ _ _ _ Hplan).
  destruct Hop as [-> | ->]; cbn [decoder]; rewrite data_and_total_cases;
    now destruct (headers_get resp countHeader).
Qed.

(** C2, as the code has it: when the client answers the request of
    getList or getManyReference, an absent count header makes the
    operation reject with the TypeError of calling [split] on [null]; a
    header that is present makes it resolve with [parseInt] of the text
    after the last [/], and that total is [NaN] when the text is empty or
    opens with a letter. *)
Theorem count_header_absent_or_unparsed
        (apiUrl : string) (httpClient : request -> outcome response)
        (countHeader : string) (op : operation) (resource : string)
        (params : object) (req : request) (resp : response) :
  op = GetList \/ op = GetManyReference ->
  fst (provider apiUrl httpClient countHeader op resource params) = [req] ->
  httpClient req = Resolves resp ->
  let result := snd (provider apiUrl httpClient countHeader op resource params) in
  (headers_get resp countHeader = None -> result = Rejects TypeError)
  /\ (forall h, headers_get resp countHeader = Some h ->
        result = Resolves (VObj [("data", json resp);
                                 ("total", parseInt (VStr (trailing_segment h)))]))
  /\ (forall h, headers_get resp countHeader = Some h ->
        non_numeric (trailing_segment h) = true ->
        result = Resolves (VObj [("data", json resp); ("total", VNaN)])).
Proof.
  intros Hop Hcalls Hresp result; subst result.
  rewrite (listing_outcome _ _ _ _ _ _ _ _ Hop Hcalls Hresp).
  repeat split.
  - now intros ->.
  - now intros h ->.
  - intros h -> Hn. now rewrite parseInt_non_numeric.
Qed.

Lemma count_header_absent_or_unparsed_witness :
  fst (provider Sample.api (Sample.answering None (VArr [])) "Content-Range"
         GetList "posts" Sample.list_params)
  = [GET "http://my.api.url/api/v2/posts?page=1&per=10&q=%5Bobject%20Object%5D"]
  /\ snd (provider Sample.api (Sample.answering None (VArr [])) "Content-Range"
            GetList "posts" Sample.list_params)
     = Rejects TypeError.
Proof.
  split; [reflexivity|].
  exact (proj1 (count_header_absent_or_unparsed Sample.api
                  (Sample.answering None (VArr [])) "Content-Range" GetList
                  "posts" Sample.list_params
                  (GET "http://my.api.url/api/v2/posts?page=1&per=10&q=%5Bobject%20Object%5D")
                  (mkResponse (fun _ => None) (VArr []))
                  (or_introl eq_refl) eq_refl eq_refl)
           eq_refl).
Defined.

(** C2, as stated, fails: with the header [posts 0-4/abc], whose
    trailing segment is not numeric, getList and getManyReference do not
    fail; both resolve, with the total [NaN]. *)
Lemma listing_resolves_with_NaN_total :
  snd (getList Sample.api (Sample.answering (Some "posts 0-4/abc") (VArr []))
         "Content-Range" "posts" Sample.list_params)
  = Resolves (VObj [("data", VArr []); ("total", VNaN)])
  /\ snd (getManyReference Sample.api
            (Sample.answering (Some "comments 0-1/abc") (VArr []))
            "Content-Range" "comments" (Sample.reference_params (VNum 1)))
     = Resolves (VObj [("data", VArr []); ("total", VNaN)]).
Proof. split; reflexivity. Qed.

(** C4: when the count header of the response to getList reads
    [<anything>/<total>] with [<total>] a non-empty string of decimal
    digits, the text after the last [/] is [<total>], [parseInt] reads it
    as the number its digits denote, and that number is the total getList
    reports.  A number is a double: up to 2^53 it is the integer itself,
    above it the nearest double.  For [posts 0-4/27] the total is 27. *)
Theorem getList_total_from_header
        (apiUrl : string) (httpClient : request -> outcome response)
        (countHeader resource : string) (params : object)
        (req : request) (resp : response) (pre ds : string) :
  fst (getList apiUrl httpClient countHeader resource params) = [req] ->
  httpClient req = Resolves resp ->
  headers_get resp countHeader = Some (pre ++ "/" ++ ds) ->
  ds <> "" -> all_digits ds = true ->
  trailing_segment (pre ++ "/" ++ ds) = ds
  /\ parseInt (array_pop (split_on "/" (pre ++ "/" ++ ds)))
     = Number_of_Z (decimal_value ds)
  /\ snd (getList apiUrl httpClient countHeader resource params)
     = Resolves (VObj [("data", json resp);
                       ("total", Number_of_Z (decimal_value ds))])
  /\ (decimal_value ds <= 2 ^ 53 ->
      Number_of_Z (decimal_value ds) = VNum (decimal_value ds)).
Proof.
  intros Hcalls Hresp Hh Hne Hd.
  pose proof (trailing_segment_digits pre ds Hd) as Hseg.
  pose proof (parseInt_digits ds Hne Hd) as Hparse.
  split; [exact Hseg|]. split; [|split].
  - now rewrite array_pop_split, Hseg.
  - change (getList apiUrl httpClient countHeader resource params)
      with (provider apiUrl httpClient countHeader GetList resource params) in *.
    rewrite (listing_outcome _ _ _ _ _ _ _ _ (or_introl eq_refl) Hcalls Hresp).
    now rewrite Hh, Hseg, Hparse.
  - apply Number_of_Z_exact.
Qed.

Lemma getList_total_from_header_witness :
  snd (getList Sample.api (Sample.answering (Some "posts 0-4/27") (VArr []))
         "Content-Range" "posts" Sample.list_params)
  = Resolves (VObj [("data", VArr []); ("total", VNum 27)])
  /\ snd (getList Sample.api
            (Sample.answering (Some "posts 0-4/9007199254740993") (VArr []))
            "Content-Range" "posts" Sample.list_params)
     = Resolves (VObj [("data", VArr []); ("total", VNum 9007199254740992)]).
Proof.
  split.
  - refine (proj1 (proj2 (proj2 (getList_total_from_header Sample.api
                     (Sample.answering (Some "posts 0-4/27") (VArr []))
                     "Content-Range" "posts" Sample.list_params
                     (GET "http://my.api.url/api/v2/posts?page=1&per=10&q=%5Bobject%20Object%5D")
                     (mkResponse (fun _ => Some "posts 0-4/27") (VArr []))
                     "posts 0-4" "27" eq_refl eq_refl eq_refl _ eq_refl)))).
    discriminate.
  - refine (proj1 (proj2 (proj2 (getList_total_from_header Sample.api
                     (Sample.answering (Some "posts 0-4/9007199254740993") (VArr []))
                     "Content-Range" "posts" Sample.list_params
                     (GET "http://my.api.url/api/v2/posts?page=1&per=10&q=%5Bobject%20Object%5D")
                     (mkResponse (fun _ => Some "posts 0-4/9007199254740993") (VArr []))
                     "posts 0-4" "9007199254740993" eq_refl eq_refl eq_refl _
                     eq_refl)))).
    discriminate.
Defined.

(** ** getMany *)

Lemma fold_push_map {A B : Type} (f : A -> B) (l : list A) (acc : list B) :
  fold_left (fun query x => (query ++ [f x])%list) l acc = (acc ++ map f l)%list.
Proof.
  revert acc; induction l as [|x l IH]; intros acc; simpl.
  - now rewrite app_nil_r.
  - now rewrite IH, <- app_assoc.
Qed.

Lemma id_in_segments_map (ids : list value) :
  id_in_segments ids = map id_in_segment ids.
Proof. unfold id_in_segments. apply (fold_push_map id_in_segment ids []). Qed.

(** C5: getMany builds the URL [apiUrl/resource?] followed by one segment
    [q["id_in"][]=<id>] per id, in the order of the ids, joined by [&],
    and issues that one request. *)
Theorem getMany_url
        (apiUrl : string) (httpClient : request -> outcome response)
        (resource : string) (params : object) (ids : list value) :
  param params "ids" = VArr ids ->
  fst (getMany apiUrl httpClient resource params)
  = [GET (apiUrl ++ "/" ++ resource ++ "?"
          ++ join_strings "&" (map id_in_segment ids))].
Proof.
  intros Hids; unfold getMany, getMany_plan. rewrite Hids; cbn [iterate bind ret].
  now rewrite id_in_segments_map.
Qed.

Lemma getMany_url_witness :
  map url (fst (getMany Sample.api (Sample.answering None (VArr []))
                  "posts" Sample.many_params))
  = ["http://my.api.url/api/v2/posts?"
     ++ "q[" ++ chr DQUOTE ++ "id_in" ++ chr DQUOTE ++ "][]=123" ++ "&"
     ++ "q[" ++ chr DQUOTE ++ "id_in" ++ chr DQUOTE ++ "][]=124" ++ "&"
     ++ "q[" ++ chr DQUOTE ++ "id_in" ++ chr DQUOTE ++ "][]=125"].
Proof.
  rewrite (getMany_url Sample.api (Sample.answering None (VArr [])) "posts"
             Sample.many_params Sample.ids eq_refl).
  reflexivity.
Defined.

(** ** The query of getList and getManyReference *)

(** Whatever the sort and the filters, the query string shows the page,
    the page size and [String(q)]. *)
Lemma computeFilters_on_the_wire
      (object page perPage field order target id query : value) :
  computeFilters object page perPage field order target id = inr query ->
  stringify query
  = stringify (VObj [("q", VObj []); ("page", page); ("per", perPage)]).
Proof.
  intros H. destruct (Object_entries_cases object) as [He | He].
  - rewrite (computeFilters_throws _ _ _ _ _ _ _ He) in H; discriminate.
  - rewrite (computeFilters_shape _ _ _ _ _ _ _ _ He) in H.
    injection H as <-. apply stringify_query_opaque.
Qed.

(** The descriptor getList hands to the serializer: under [q], the sort
    entry [s], whose text JSON-decodes to [field order], then one entry
    [k_eq] per filter key [k], with its value, and nothing else. *)
Lemma getList_query_descriptor
      (apiUrl countHeader resource : string) (params : object)
      (pg so fl : object) :
  param params "paginate" = VObj pg ->
  param params "sort" = VObj so ->
  param params "filter" = VObj fl ->
  NoDup (keys fl) ->
  let text := ToString (param so "field") ++ " " ++ ToString (param so "order") in
  let query :=
    VObj [("q", VObj (("s", VStr (json_quote text))
                      :: map (fun kv => (eq_key (fst kv), snd kv)) fl));
          ("page", param pg "page"); ("per", param pg "perPage")] in
  getList_plan apiUrl countHeader resource params
  = inr (GET (apiUrl ++ "/" ++ resource ++ "?" ++ stringify query),
         data_and_total countHeader)
  /\ JSON_parse_string (json_quote text) = Some text.
Proof.
  intros Hpg Hso Hfl Hnd text query; split; [|apply JSON_parse_quote].
  unfold getList_plan. rewrite Hpg, Hso, Hfl; cbn [get_field bind ret].
  fold (param pg "page") (param pg "perPage") (param so "field")
    (param so "order").
  rewrite (computeFilters_shape _ _ _ _ _ _ _ fl) by reflexivity.
  cbn [bind]. unfold filters_of; cbn [truthy andb].
  now rewrite generic_filters_map.
Qed.

(** C3, evaluated: for page 1 of 10, sort [title ASC] and the filter
    [author_id = 12], the URL getList requests is
    [posts?page=1&per=10&q=%5Bobject%20Object%5D].  Its parameters are
    [page], [per] and [q], the last with the value [[object Object]]: it
    has no parameter [q[s]] and none for the filter. *)
Theorem getList_url_has_no_sort_parameter :
  let u :=
    "http://my.api.url/api/v2/posts?page=1&per=10&q=%5Bobject%20Object%5D" in
  fst (getList Sample.api (Sample.answering (Some "posts 0-4/27") (VArr []))
         "Content-Range" "posts" Sample.list_params)
  = [GET u]
  /\ query_params u = [("page", "1"); ("per", "10"); ("q", "[object Object]")]
  /\ url_param u "q[s]" = None
  /\ url_param u "q[author_id_eq]" = None.
Proof. repeat split. Qed.

(** The descriptor getManyReference hands to the serializer: when it
    issues its request and both the target and the reference id are
    truthy, the query holds, under [q], the entry [s] with the JSON text
    of [field order] and the entry [<target>_eq] with the reference id. *)
Theorem getManyReference_query
        (apiUrl countHeader resource : string) (params : object)
        (req : request) (dec : response -> exc value) :
  getManyReference_plan apiUrl countHeader resource params = inr (req, dec) ->
  truthy (param params "target") = true ->
  truthy (param params "id") = true ->
  exists page perPage field order q,
    get_field (param params "pagination") "page" = inr page
    /\ get_field (param params "pagination") "perPage" = inr perPage
    /\ get_field (param params "sort") "field" = inr field
    /\ get_field (param params "sort") "order" = inr order
    /\ computeFilters (param params "filter") page perPage field order
         (param params "target") (param params "id")
       = inr (VObj [("q", VObj q); ("page", page); ("per", perPage)])
    /\ req = GET (apiUrl ++ "/" ++ resource ++ "?"
                  ++ stringify (VObj [("q", VObj q); ("page", page);
                                      ("per", perPage)]))
    /\ lookup "s" q
       = Some (VStr (json_quote (ToString field ++ " " ++ ToString order)))
    /\ JSON_parse_string (json_quote (ToString field ++ " " ++ ToString order))
       = Some (ToString field ++ " " ++ ToString order)
    /\ lookup (eq_key (ToString (param params "target"))) q
       = Some (param params "id").
Proof.
  intros Hplan Ht Hi. unfold getManyReference_plan in Hplan.
  split_binds Hplan.
  match goal with
  | E : computeFilters _ ?p ?pp ?f ?o _ _ = inr ?qv |- _ =>
      exists p, pp, f, o; pose proof E as Hq
  end.
  destruct (Object_entries_cases (param params "filter")) as [He | He].
  - rewrite (computeFilters_throws _ _ _ _ _ _ _ He) in Hq; discriminate.
  - rewrite (computeFilters_shape _ _ _ _ _ _ _ _ He) in Hq.
    injection Hq as <-. injection Hplan as <- _.
    eexists.
    do 4 (split; [reflexivity|]).
    split; [eassumption|].
    split; [reflexivity|]. split; [reflexivity|].
    split; [apply JSON_parse_quote|].
    cbn [lookup].
    destruct ("s" =? eq_key (ToString (param params "target")))%string eqn:E'.
    + apply String.eqb_eq in E'. symmetry in E'. now apply eq_key_not_s in E'.
    + unfold filters_of. rewrite Ht, Hi; cbn [andb].
      apply lookup_obj_set_same.
Qed.

Lemma getManyReference_query_witness :
  exists q,
    computeFilters (VObj []) (VNum 1) (VNum 10) (VStr "email") (VStr "ASC")
      (VStr "post_id") (VNum 1)
    = inr (VObj [("q", VObj q); ("page", VNum 1); ("per", VNum 10)])
    /\ lookup "s" q = Some (VStr (json_quote "email ASC"))
    /\ lookup "post_id_eq" q = Some (VNum 1).
Proof.
  destruct (getManyReference_query Sample.api "Content-Range" "comments"
              (Sample.reference_params (VNum 1))
              (GET "http://my.api.url/api/v2/comments?page=1&per=10&q=%5Bobject%20Object%5D")
              (data_and_total "Content-Range") eq_refl eq_refl eq_refl)
    as (page & perPage & field & order & q
        & Hp & Hpp & Hf & Ho & Hq & _ & Hs & _ & Ht).
  injection Hp as <-. injection Hpp as <-.
  injection Hf as <-. injection Ho as <-.
  exists q. split; [exact Hq | split; [exact Hs | exact Ht]].
Defined.

(** With the target [post_id] and the reference id 0 the guard of
    [computeFilters] leaves the reference out: the query getManyReference
    builds has no entry [post_id_eq]. *)
Lemma getManyReference_drops_zero_id :
  computeFilters (VObj []) (VNum 1) (VNum 10) (VStr "email") (VStr "ASC")
    (VStr "post_id") (VNum 0)
  = inr (VObj [("q", VObj [("s", VStr (json_quote "email ASC"))]);
               ("page", VNum 1); ("per", VNum 10)])
  /\ fst (getManyReference Sample.api (Sample.answering None (VArr []))
            "Content-Range" "comments" (Sample.reference_params (VNum 0)))
     = [GET "http://my.api.url/api/v2/comments?page=1&per=10&q=%5Bobject%20Object%5D"]
  /\ url_param
       "http://my.api.url/api/v2/comments?page=1&per=10&q=%5Bobject%20Object%5D"
       "q[post_id_eq]"
     = None.
Proof. repeat split. Qed.

(** C6, evaluated: for the target [post_id], the reference id 1 and the
    sort [email ASC], the URL getManyReference requests is
    [comments?page=1&per=10&q=%5Bobject%20Object%5D].  Its parameters are
    [page], [per] and [q], the last with the value [[object Object]]: it
    has neither the parameter [q[s]] nor the parameter [q[post_id_eq]]. *)
Theorem getManyReference_url_has_no_reference_parameter :
  let u :=
    "http://my.api.url/api/v2/comments?page=1&per=10&q=%5Bobject%20Object%5D" in
  fst (getManyReference Sample.api
         (Sample.answering (Some "comments 0-1/2") (VArr []))
         "Content-Range" "comments" (Sample.reference_params (VNum 1)))
  = [GET u]
  /\ query_params u = [("page", "1"); ("per", "10"); ("q", "[object Object]")]
  /\ url_param u "q[s]" = None
  /\ url_param u "q[post_id_eq]" = None.
Proof. repeat split. Qed.

(** ** create *)

(** C7: when the server answers the request of create with a JSON object
    that has an [id], create resolves with the record it was given, its
    field [id] set to the id of the server: [id] reads as the server's
    value and every other field reads as in the record. *)
Theorem create_overlays_server_id
        (apiUrl : string) (httpClient : request -> outcome response)
        (resource : string) (params : object) (d r : object)
        (i : value) (resp : response) :
  param params "data" = VObj d ->
  NoDup (keys d) ->
  httpClient (mkRequest (apiUrl ++ "/" ++ resource) (Some "POST")
                (Some (envelope resource (VObj d))))
  = Resolves resp ->
  json resp = VObj r ->
  lookup "id" r = Some i ->
  create apiUrl httpClient resource params
  = ([mkRequest (apiUrl ++ "/" ++ resource) (Some "POST")
        (Some (envelope resource (VObj d)))],
     Resolves (VObj [("data", VObj (obj_set "id" i d))]))
  /\ lookup "id" (obj_set "id" i d) = Some i
  /\ (forall k, k <> "id" -> lookup k (obj_set "id" i d) = lookup k d).
Proof.
  intros Hd Hnd Hresp Hr Hi; repeat split.
  - unfold create, create_plan; rewrite Hd; cbn [ret perform].
    rewrite Hresp; cbn [then_]. unfold created. rewrite Hr; cbn [get_field].
    rewrite Hi; cbn [bind ret]. now rewrite spread_empty.
  - apply lookup_obj_set_same.
  - intros k Hk. apply lookup_obj_set_other. congruence.
Qed.

Lemma create_overlays_server_id_witness :
  snd (create Sample.api (Sample.answering None (VObj [("id", VNum 123)]))
         "posts" Sample.create_params)
  = Resolves (VObj [("data", VObj [("title", VStr "hello"); ("id", VNum 123)])]).
Proof.
  rewrite (proj1 (create_overlays_server_id Sample.api
                    (Sample.answering None (VObj [("id", VNum 123)]))
                    "posts" Sample.create_params
                    [("title", VStr "hello")] [("id", VNum 123)] (VNum 123)
                    (mkResponse (fun _ => None) (VObj [("id", VNum 123)]))
                    eq_refl
                    (NoDup_cons "title" (fun H : In "title" [] => H) (NoDup_nil _))
                    eq_refl eq_refl eq_refl)).
  reflexivity.
Defined.

(** ** Failures of the client *)

(** No operation calls the client more than once. *)
Lemma provider_at_most_one_call
      (apiUrl : string) (httpClient : request -> outcome response)
      (countHeader : string) (op : operation) (resource : string)
      (params : object) :
  (List.length (fst (provider apiUrl httpClient countHeader op resource params))
   <= 1)%nat.
Proof.
  rewrite provider_perform.
  destruct (operation_plan apiUrl countHeader op resource params) as [e | [req dec]];
    simpl; lia.
Qed.

(** An exception the client throws on the call leaves the operation as
    it is. *)
Lemma transport_exception_propagates
      (apiUrl : string) (httpClient : request -> outcome response)
      (countHeader : string) (op : operation) (resource : string)
      (params : object) (req : request) (e : error) :
  In req (fst (provider apiUrl httpClient countHeader op resource params)) ->
  httpClient req = Throws e ->
  provider apiUrl httpClient countHeader op resource params = ([req], Throws e).
Proof.
  intros Hin He; rewrite provider_perform in *.
  destruct (perform_calls _ _ _ Hin) as (dec & _ & ->). now rewrite He.
Qed.

(** C8: whatever the operation and its input, when the call it makes to
    the client is rejected with [e], the operation has made that one call
    and is rejected with the same [e]. *)
Theorem transport_failure_propagates
        (apiUrl : string) (httpClient : request -> outcome response)
        (countHeader : string) (op : operation) (resource : string)
        (params : object) (req : request) (e : error) :
  In req (fst (provider apiUrl httpClient countHeader op resource params)) ->
  httpClient req = Rejects e ->
  provider apiUrl httpClient countHeader op resource params = ([req], Rejects e).
Proof.
  intros Hin He; rewrite provider_perform in *.
  destruct (perform_calls _ _ _ Hin) as (dec & _ & ->). now rewrite He.
Qed.

Lemma transport_failure_propagates_witness :
  provider Sample.api (Sample.failing (TransportError (VStr "Not Found")))
    "Content-Range" Delete "posts" [("id", VNum 123)]
  = ([mkRequest "http://my.api.url/api/v2/posts/123" (Some "DELETE") None],
     Rejects (TransportError (VStr "Not Found"))).
Proof.
  apply (transport_failure_propagates Sample.api
           (Sample.failing (TransportError (VStr "Not Found")))
           "Content-Range" Delete "posts" [("id", VNum 123)]).
  - left; reflexivity.
  - reflexivity.
Defined.

(** ** The pagination field *)

Lemma param_obj_set_same (k : string) (v : value) (o : object) :
  param (obj_set k v o) k = v.
Proof. unfold param; now rewrite lookup_obj_set_same. Qed.

Lemma param_obj_set_other (k k' : string) (v : value) (o : object) :
  k <> k' -> param (obj_set k v o) k' = param o k'.
Proof. intros H; unfold param; now rewrite lookup_obj_set_other. Qed.

(** C9: getList reads the page from [params.paginate] and
    getManyReference from [params.pagination].  On parameters without a
    [paginate] field getList throws a TypeError and calls nothing, while
    getManyReference, given objects for [pagination], [sort] and [filter],
    issues its request with the page and page size of [pagination]. *)
Theorem getList_reads_paginate
        (apiUrl : string) (httpClient : request -> outcome response)
        (countHeader resource : string) (params pg so fl : object) :
  lookup "paginate" params = None ->
  param params "pagination" = VObj pg ->
  param params "sort" = VObj so ->
  param params "filter" = VObj fl ->
  getList apiUrl httpClient countHeader resource params = ([], Throws TypeError)
  /\ exists q,
      computeFilters (VObj fl) (param pg "page") (param pg "perPage")
        (param so "field") (param so "order")
        (param params "target") (param params "id")
      = inr (VObj [("q", VObj q); ("page", param pg "page");
                   ("per", param pg "perPage")])
      /\ fst (getManyReference apiUrl httpClient countHeader resource params)
         = [GET (apiUrl ++ "/" ++ resource ++ "?"
                 ++ stringify (VObj [("q", VObj q); ("page", param pg "page");
                                     ("per", param pg "perPage")]))].
Proof.
  intros Hnone Hpg Hso Hfl; split.
  - unfold getList, getList_plan, param at 1. now rewrite Hnone.
  - eexists; split; [now apply computeFilters_shape|].
    unfold getManyReference, getManyReference_plan.
    rewrite Hpg, Hso, Hfl; cbn [get_field bind ret].
    fold (param pg "page") (param pg "perPage") (param so "field")
      (param so "order").
    rewrite (computeFilters_shape _ _ _ _ _ _ _ fl) by reflexivity.
    reflexivity.
Qed.

Lemma getList_reads_paginate_witness :
  getList Sample.api (Sample.answering (Some "comments 0-1/2") (VArr []))
    "Content-Range" "comments" (Sample.reference_params (VNum 1))
  = ([], Throws TypeError).
Proof.
  exact (proj1 (getList_reads_paginate Sample.api
                  (Sample.answering (Some "comments 0-1/2") (VArr []))
                  "Content-Range" "comments" (Sample.reference_params (VNum 1))
                  [("page", VNum 1); ("perPage", VNum 10)]
                  [("field", VStr "email"); ("order", VStr "ASC")] []
                  eq_refl eq_refl eq_refl eq_refl)).
Defined.

(** ** The reference constraint *)

Lemma computeFilters_falsy_reference
      (object page perPage field order target id : value) :
  truthy target = false \/ truthy id = false ->
  computeFilters object page perPage field order target id
  = computeFilters object page perPage field order VUndefined VUndefined.
Proof.
  intros H; unfold computeFilters.
  replace (truthy target && truthy id) with false; [reflexivity|].
  destruct H as [-> | ->]; [reflexivity | now rewrite andb_false_r].
Qed.

(** C10: when the target or the reference id of a getManyReference call
    is falsy, the query it builds is the one built without any reference:
    no [<target>_eq] entry is added, and the call is, request and result,
    the getList call on the same sort, filter and page. *)
Theorem falsy_reference_is_dropped
        (apiUrl : string) (httpClient : request -> outcome response)
        (countHeader resource : string) (params : object) :
  truthy (param params "target") = false \/ truthy (param params "id") = false ->
  (forall object page perPage field order,
      computeFilters object page perPage field order
        (param params "target") (param params "id")
      = computeFilters object page perPage field order VUndefined VUndefined)
  /\ (forall entries,
        filters_of entries (param params "target") (param params "id")
        = generic_filters entries)
  /\ getManyReference apiUrl httpClient countHeader resource params
     = getList apiUrl httpClient countHeader resource
         (obj_set "paginate" (param params "pagination") params).
Proof.
  intros H; split; [|split].
  - intros; now apply computeFilters_falsy_reference.
  - intros entries; unfold filters_of.
    replace (truthy (param params "target") && truthy (param params "id"))
      with false; [reflexivity|].
    destruct H as [-> | ->]; [reflexivity | now rewrite andb_false_r].
  - unfold getManyReference, getList, getManyReference_plan, getList_plan.
    rewrite param_obj_set_same.
    rewrite !param_obj_set_other by discriminate.
    apply f_equal.
    destruct (get_field (param params "pagination") "page");
      cbn [bind]; [reflexivity|].
    destruct (get_field (param params "pagination") "perPage");
      cbn [bind]; [reflexivity|].
    destruct (get_field (param params "sort") "field");
      cbn [bind]; [reflexivity|].
    destruct (get_field (param params "sort") "order");
      cbn [bind]; [reflexivity|].
    now rewrite computeFilters_falsy_reference.
Qed.

Lemma falsy_reference_is_dropped_witness :
  getManyReference Sample.api (Sample.answering (Some "comments 0-1/2") (VArr []))
    "Content-Range" "comments" (Sample.reference_params (VNum 0))
  = getList Sample.api (Sample.answering (Some "comments 0-1/2") (VArr []))
      "Content-Range" "comments"
      (obj_set "paginate" Sample.first_page (Sample.reference_params (VNum 0))).
Proof.
  exact (proj2 (proj2 (falsy_reference_is_dropped Sample.api
                         (Sample.answering (Some "comments 0-1/2") (VArr []))
                         "Content-Range" "comments"
                         (Sample.reference_params (VNum 0))
                         (or_intror eq_refl)))).
Defined.


(** * Further properties *)

(** ** When the client is called *)

Lemma get_field_nullish (v : value) (name : string) :
  nullish v = true -> get_field v name = inl TypeError.
Proof. destruct v; simpl; intros H; try discriminate; reflexivity. Qed.

Lemma get_field_defined (v : value) (name : string) :
  nullish v = false -> exists x, get_field v name = inr x.
Proof. destruct v; simpl; intros H; try discriminate; eexists; reflexivity. Qed.

Lemma computeFilters_nullish (object page perPage field order target id : value) :
  nullish object = true ->
  computeFilters object page perPage field order target id = inl TypeError.
Proof.
  intros H; apply computeFilters_throws.
  destruct object; simpl in *; try discriminate; reflexivity.
Qed.

Lemma computeFilters_defined (object page perPage field order target id : value) :
  nullish object = false ->
  exists q, computeFilters object page perPage field order target id = inr q.
Proof.
  intros H; destruct object; simpl in H; try discriminate;
    eexists; apply computeFilters_shape; reflexivity.
Qed.

(** The plan of a listing operation, by the three values it reads. *)
Lemma listing_plan_cases (apiUrl countHeader resource : string)
      (pagination sort filter target id : value) :
  let p :=
    page <- get_field pagination "page" ;;
    perPage <- get_field pagination "perPage" ;;
    field <- get_field sort "field" ;;
    order <- get_field sort "order" ;;
    query <- computeFilters filter page perPage field order target id ;;
    ret (GET (apiUrl ++ "/" ++ resource ++ "?" ++ stringify query),
         data_and_total countHeader) in
  if negb (nullish pagination) && negb (nullish sort) && negb (nullish filter)
  then exists req, p = inr (req, data_and_total countHeader)
  else p = inl TypeError.
Proof.
  intros p; subst p.
  destruct (nullish pagination) eqn:Hp; cbn [negb andb].
  { now rewrite (get_field_nullish _ _ Hp). }
  destruct (get_field_defined pagination "page" Hp) as [page ->].
  destruct (get_field_defined pagination "perPage" Hp) as [perPage ->].
  cbn [bind].
  destruct (nullish sort) eqn:Hs; cbn [negb andb].
  { now rewrite (get_field_nullish _ _ Hs). }
  destruct (get_field_defined sort "field" Hs) as [field ->].
  destruct (get_field_defined sort "order" Hs) as [order ->].
  cbn [bind].
  destruct (nullish filter) eqn:Hf; cbn [negb].
  { now rewrite computeFilters_nullish. }
  destruct (computeFilters_defined filter page perPage field order target id Hf)
    as [q ->].
  cbn [bind ret]. eexists; reflexivity.
Qed.

(** X1: every operation either throws a TypeError before calling the
    client, or calls it exactly once; which of the two depends only on the
    parameters it reads: the listing operations need their page, sort and
    filter to be neither null nor undefined, getMany needs [ids] to be an
    array or a string, updateMany and deleteMany need it to be an array,
    and getOne, create, update and delete always make their call. *)
Theorem provider_throws_or_calls_once
        (apiUrl : string) (httpClient : request -> outcome response)
        (countHeader : string) (op : operation) (resource : string)
        (params : object) :
  if ready op params
  then exists req,
      fst (provider apiUrl httpClient countHeader op resource params) = [req]
  else provider apiUrl httpClient countHeader op resource params
       = ([], Throws TypeError).
Proof.
  rewrite provider_perform.
  destruct op; cbn [ready operation_plan].
  - pose proof (listing_plan_cases apiUrl countHeader resource
                  (param params "paginate") (param params "sort")
                  (param params "filter") VUndefined VUndefined) as H.
    cbv zeta in H. fold (getList_plan apiUrl countHeader resource params) in H.
    destruct (negb (nullish (param params "paginate"))
              && negb (nullish (param params "sort"))
              && negb (nullish (param params "filter"))).
    + destruct H as [req ->]. now exists req.
    + now rewrite H.
  - eexists; reflexivity.
  - unfold getMany_plan.
    destruct (param params "ids"); cbn [iterate bind ret throw perform];
      try reflexivity; eexists; reflexivity.
  - pose proof (listing_plan_cases apiUrl countHeader resource
                  (param params "pagination") (param params "sort")
                  (param params "filter") (param params "target")
                  (param params "id")) as H.
    cbv zeta in H.
    fold (getManyReference_plan apiUrl countHeader resource params) in H.
    destruct (negb (nullish (param params "pagination"))
              && negb (nullish (param params "sort"))
              && negb (nullish (param params "filter"))).
    + destruct H as [req ->]. now exists req.
    + now rewrite H.
  - eexists; reflexivity.
  - eexists; reflexivity.
  - unfold updateMany_plan, ids_query.
    destruct (param params "ids"); cbn [join_method bind ret throw perform];
      try reflexivity; eexists; reflexivity.
  - eexists; reflexivity.
  - unfold deleteMany_plan, ids_query.
    destruct (param params "ids"); cbn [join_method bind ret throw perform];
      try reflexivity; eexists; reflexivity.
Qed.

(** ** The shape of the requests *)

Lemma listing_plan_url (apiUrl countHeader resource : string)
      (pagination sort filter target id : value) (req : request)
      (dec : response -> exc value) :
  (page <- get_field pagination "page" ;;
   perPage <- get_field pagination "perPage" ;;
   field <- get_field sort "field" ;;
   order <- get_field sort "order" ;;
   query <- computeFilters filter page perPage field order target id ;;
   ret (GET (apiUrl ++ "/" ++ resource ++ "?" ++ stringify query),
        data_and_total countHeader)) = inr (req, dec) ->
  exists query, req = GET (apiUrl ++ "/" ++ resource ++ "?" ++ stringify query).
Proof.
  intros H. split_binds H. injection H as <- _. eexists; reflexivity.
Qed.

(** X2: whatever the operation and its parameters, the request it issues
    goes to a URL that extends [apiUrl/resource], carries the method of
    the operation (none for the four reads, POST for create, PUT for
    update and updateMany, DELETE for delete and deleteMany) and has a
    body, the JSON envelope [{resource: data}], exactly for create, update
    and updateMany. *)
Theorem request_shape
        (apiUrl : string) (httpClient : request -> outcome response)
        (countHeader : string) (op : operation) (resource : string)
        (params : object) (req : request) :
  In req (fst (provider apiUrl httpClient countHeader op resource params)) ->
  (exists suffix, url req = apiUrl ++ "/" ++ resource ++ suffix)
  /\ method req = method_of op
  /\ body req = body_of op resource params.
Proof.
  intros Hin; rewrite provider_perform in Hin.
  destruct (perform_calls _ _ _ Hin) as (dec & Hplan & _); clear Hin.
  destruct op; cbn [operation_plan method_of body_of] in *.
  - apply listing_plan_url in Hplan as [q ->]. cbn.
    repeat split. eexists; reflexivity.
  - injection Hplan as <- _. cbn. repeat split. eexists; reflexivity.
  - unfold getMany_plan in Hplan. split_binds Hplan. injection Hplan as <- _.
    cbn. repeat split. eexists; reflexivity.
  - apply listing_plan_url in Hplan as [q ->]. cbn.
    repeat split. eexists; reflexivity.
  - injection Hplan as <- _. cbn. repeat split.
    exists ""; now rewrite append_nil_r.
  - injection Hplan as <- _. cbn. repeat split. eexists; reflexivity.
  - unfold updateMany_plan in Hplan. split_binds Hplan. injection Hplan as <- _.
    cbn. repeat split. eexists; reflexivity.
  - injection Hplan as <- _. cbn. repeat split. eexists; reflexivity.
  - unfold deleteMany_plan in Hplan. split_binds Hplan. injection Hplan as <- _.
    cbn. repeat split. eexists; reflexivity.
Qed.

Lemma request_shape_witness :
  method_of Update = Some "PUT"
  /\ body_of Update "posts" [("id", VNum 123); ("data", VObj [("title", VStr "hello")])]
     = Some (envelope "posts" (VObj [("title", VStr "hello")])).
Proof.
  destruct (request_shape Sample.api (Sample.answering None VNull) "Content-Range"
              Update "posts"
              [("id", VNum 123); ("data", VObj [("title", VStr "hello")])]
              (mkRequest "http://my.api.url/api/v2/posts/123" (Some "PUT")
                 (Some (envelope "posts" (VObj [("title", VStr "hello")]))))
              (or_introl eq_refl)) as (_ & Hm & Hb).
  split; [exact (eq_sym Hm) | exact (eq_sym Hb)].
Defined.

(** ** Results that are the body of the response *)

(** X3: getOne, getMany, update, updateMany, delete and deleteMany never
    look at the headers of the response: once the client resolves their
    request, they resolve with the JSON body, unchanged, under [data]. *)
Theorem plain_operations_return_body
        (apiUrl : string) (httpClient : request -> outcome response)
        (countHeader : string) (op : operation) (resource : string)
        (params : object) (req : request) (resp : response) :
  op <> GetList -> op <> GetManyReference -> op <> Create ->
  In req (fst (provider apiUrl httpClient countHeader op resource params)) ->
  httpClient req = Resolves resp ->
  provider apiUrl httpClient countHeader op resource params
  = ([req], Resolves (VObj [("data", json resp)])).
Proof.
  intros H1 H2 H3 Hin Hresp; rewrite provider_perform in *.
  destruct (perform_calls _ _ _ Hin) as (dec & Hplan & ->).
  rewrite (operation_plan_decoder _ _ _ _ _ _ _ Hplan), Hresp.
  destruct op; try contradiction; reflexivity.
Qed.

Lemma plain_operations_return_body_witness :
  provider Sample.api (Sample.answering None (VObj [("id", VNum 123)]))
    "Content-Range" GetOne "posts" [("id", VNum 123)]
  = ([GET "http://my.api.url/api/v2/posts/123"],
     Resolves (VObj [("data", VObj [("id", VNum 123)])])).
Proof.
  apply (plain_operations_return_body Sample.api
           (Sample.answering None (VObj [("id", VNum 123)])) "Content-Range"
           GetOne "posts" [("id", VNum 123)]
           (GET "http://my.api.url/api/v2/posts/123")
           (mkResponse (fun _ => None) (VObj [("id", VNum 123)])));
    try discriminate.
  - left; reflexivity.
  - reflexivity.
Defined.

(** ** create at its edges *)

Lemma obj_set_keys_present (k : string) (v : value) (o : object) :
  In k (keys o) -> keys (obj_set k v o) = keys o.
Proof.
  induction o as [|[k' v'] o IH]; simpl; intros H; [contradiction|].
  destruct (k' =? k)%string eqn:E; simpl.
  - apply String.eqb_eq in E; now subst.
  - f_equal. apply IH. destruct H as [H | H]; [|assumption].
    subst. now rewrite String.eqb_refl in E.
Qed.

Lemma obj_set_keys_fresh (k : string) (v : value) (o : object) :
  ~ In k (keys o) -> keys (obj_set k v o) = (keys o ++ [k])%list.
Proof.
  intros H; rewrite obj_set_fresh by assumption.
  unfold keys; now rewrite map_app.
Qed.

(** The outcome of create, by what the client answers. *)
Lemma create_outcome (apiUrl : string) (httpClient : request -> outcome response)
      (resource : string) (params : object) :
  create apiUrl httpClient resource params
  = ([mkRequest (apiUrl ++ "/" ++ resource) (Some "POST")
        (Some (envelope resource (param params "data")))],
     then_ (httpClient (mkRequest (apiUrl ++ "/" ++ resource) (Some "POST")
                          (Some (envelope resource (param params "data")))))
       (created (param params "data"))).
Proof. reflexivity. Qed.

(** X4: create depends on the body of the response for the id alone.  A
    body that is [null] or [undefined] rejects the operation with a
    TypeError, after its one request; a JSON object without an [id]
    resolves it with the [id] of the record set to [undefined], also when
    the record came with an id of its own. *)
Theorem create_without_server_id
        (apiUrl : string) (httpClient : request -> outcome response)
        (resource : string) (params : object) (d : object) (resp : response) :
  param params "data" = VObj d ->
  NoDup (keys d) ->
  httpClient (mkRequest (apiUrl ++ "/" ++ resource) (Some "POST")
                (Some (envelope resource (VObj d))))
  = Resolves resp ->
  (nullish (json resp) = true ->
   snd (create apiUrl httpClient resource params) = Rejects TypeError)
  /\ (forall r, json resp = VObj r -> lookup "id" r = None ->
        snd (create apiUrl httpClient resource params)
        = Resolves (VObj [("data", VObj (obj_set "id" VUndefined d))])
        /\ lookup "id" (obj_set "id" VUndefined d) = Some VUndefined).
Proof.
  intros Hd Hnd Hresp; rewrite create_outcome, Hd, Hresp; cbn [snd then_].
  unfold created; split.
  - intros Hn. now rewrite (get_field_nullish _ _ Hn).
  - intros r Hr Hid. rewrite Hr; cbn [get_field]. rewrite Hid; cbn [bind ret].
    rewrite spread_empty by assumption. split; [reflexivity|].
    apply lookup_obj_set_same.
Qed.

Lemma create_without_server_id_witness :
  snd (create Sample.api (Sample.answering None VNull) "posts" Sample.create_params)
  = Rejects TypeError
  /\ snd (create Sample.api (Sample.answering None (VObj [])) "posts"
            [("data", VObj [("id", VNum 7); ("title", VStr "hello")])])
     = Resolves (VObj [("data", VObj [("id", VUndefined); ("title", VStr "hello")])]).
Proof.
  split.
  - refine (proj1 (create_without_server_id Sample.api
                     (Sample.answering None VNull) "posts" Sample.create_params
                     [("title", VStr "hello")] (mkResponse (fun _ => None) VNull)
                     eq_refl _ eq_refl) eq_refl).
    repeat constructor; simpl; tauto.
  - refine (proj1 (proj2 (create_without_server_id Sample.api
                     (Sample.answering None (VObj [])) "posts"
                     [("data", VObj [("id", VNum 7); ("title", VStr "hello")])]
                     [("id", VNum 7); ("title", VStr "hello")]
                     (mkResponse (fun _ => None) (VObj []))
                     eq_refl _ eq_refl) [] eq_refl eq_refl)).
    repeat constructor; simpl; intuition discriminate.
Defined.

(** X5: create without [data] in its parameters posts the empty envelope
    [{}] and resolves with a record that holds the id of the server and
    nothing else. *)
Theorem create_without_data
        (apiUrl : string) (httpClient : request -> outcome response)
        (resource : string) (params : object) (r : object) (i : value)
        (resp : response) :
  lookup "data" params = None ->
  httpClient (mkRequest (apiUrl ++ "/" ++ resource) (Some "POST") (Some "{}"))
  = Resolves resp ->
  json resp = VObj r ->
  lookup "id" r = Some i ->
  create apiUrl httpClient resource params
  = ([mkRequest (apiUrl ++ "/" ++ resource) (Some "POST") (Some "{}")],
     Resolves (VObj [("data", VObj [("id", i)])])).
Proof.
  intros Hnone Hresp Hr Hi. rewrite create_outcome.
  unfold param at 1 2 3. rewrite Hnone.
  change (envelope resource VUndefined) with "{}".
  rewrite Hresp; cbn [then_]. unfold created. rewrite Hr; cbn [get_field].
  now rewrite Hi.
Qed.

Lemma create_without_data_witness :
  create Sample.api (Sample.answering None (VObj [("id", VNum 123)])) "posts" []
  = ([mkRequest "http://my.api.url/api/v2/posts" (Some "POST") (Some "{}")],
     Resolves (VObj [("data", VObj [("id", VNum 123)])])).
Proof.
  exact (create_without_data Sample.api
           (Sample.answering None (VObj [("id", VNum 123)])) "posts" []
           [("id", VNum 123)] (VNum 123)
           (mkResponse (fun _ => None) (VObj [("id", VNum 123)]))
           eq_refl eq_refl eq_refl eq_refl).
Defined.

(** X6: the record create resolves with has the fields of the record it
    was given and [id], each once: a record that already has an [id]
    keeps its fields in place, any other gets [id] as its last field. *)
Theorem create_result_fields
        (apiUrl : string) (httpClient : request -> outcome response)
        (resource : string) (params : object) (d : object) (i : value)
        (resp : response) :
  param params "data" = VObj d ->
  NoDup (keys d) ->
  httpClient (mkRequest (apiUrl ++ "/" ++ resource) (Some "POST")
                (Some (envelope resource (VObj d))))
  = Resolves resp ->
  get_field (json resp) "id" = inr i ->
  exists result,
    snd (create apiUrl httpClient resource params)
    = Resolves (VObj [("data", VObj result)])
    /\ NoDup (keys result)
    /\ (In "id" (keys d) -> keys result = keys d)
    /\ (~ In "id" (keys d) -> keys result = (keys d ++ ["id"])%list).
Proof.
  intros Hd Hnd Hresp Hi. exists (obj_set "id" i d).
  rewrite create_outcome, Hd, Hresp; cbn [snd then_].
  unfold created. rewrite Hi; cbn [bind ret].
  rewrite spread_empty by assumption.
  split; [reflexivity|]. split; [now apply obj_set_NoDup|].
  split; [apply obj_set_keys_present | apply obj_set_keys_fresh].
Qed.

Lemma create_result_fields_witness :
  exists result,
    snd (create Sample.api (Sample.answering None (VObj [("id", VNum 123)]))
           "posts" Sample.create_params)
    = Resolves (VObj [("data", VObj result)])
    /\ keys result = ["title"; "id"].
Proof.
  destruct (create_result_fields Sample.api
              (Sample.answering None (VObj [("id", VNum 123)])) "posts"
              Sample.create_params [("title", VStr "hello")] (VNum 123)
              (mkResponse (fun _ => None) (VObj [("id", VNum 123)]))
              eq_refl
              (NoDup_cons "title" (fun H : In "title" [] => H) (NoDup_nil _))
              eq_refl eq_refl) as (result & Hres & _ & _ & Hfresh).
  exists result; split; [exact Hres|].
  apply Hfresh. simpl. intros [H | []]. discriminate H.
Defined.

(** ** The query object *)

Lemma lookup_renamed (k : string) (fl : object) :
  lookup (eq_key k) (map (fun kv => (eq_key (fst kv), snd kv)) fl) = lookup k fl.
Proof.
  induction fl as [|[k' v'] fl IH]; simpl; [reflexivity|].
  destruct (k' =? k)%string eqn:E.
  - apply String.eqb_eq in E; subst. now rewrite String.eqb_refl.
  - replace (eq_key k' =? eq_key k)%string with false; [exact IH|].
    symmetry; apply String.eqb_neq. intros H; apply eq_key_inj in H.
    subst. now rewrite String.eqb_refl in E.
Qed.

Lemma keys_renamed (fl : object) :
  keys (map (fun kv => (eq_key (fst kv), snd kv)) fl) = map eq_key (keys fl).
Proof. unfold keys; rewrite !map_map; reflexivity. Qed.

(** X7: whatever filter, target and id it is given, the query object
    [computeFilters] returns holds under [q] an object whose keys are
    distinct, whose first key is [s] with the JSON text of [field order],
    and whose other keys all end in [_eq]: no filter can displace the
    sort, not even a filter named [s]. *)
Theorem computeFilters_query_keys
        (object page perPage field order target id : value) :
  nullish object = false ->
  exists filters,
    computeFilters object page perPage field order target id
    = inr (VObj [("q", VObj (("s", sort_param field order) :: filters));
                 ("page", page); ("per", perPage)])
    /\ NoDup (keys (("s", sort_param field order) :: filters))
    /\ lookup "s" (("s", sort_param field order) :: filters)
       = Some (sort_param field order)
    /\ (forall k, In k (keys filters) -> exists a, k = eq_key a).
Proof.
  intros Hn. exists (filters_of (own_entries object) target id).
  destruct (filters_of_inv (own_entries object) target id) as [Hnd Hk].
  split; [|split; [|split]].
  - apply computeFilters_shape.
    destruct object; simpl in Hn; try discriminate; reflexivity.
  - simpl; constructor; [|assumption].
    intros Hin. destruct (Hk _ Hin) as [a Ha]. symmetry in Ha.
    now apply eq_key_not_s in Ha.
  - reflexivity.
  - exact Hk.
Qed.

Lemma computeFilters_query_keys_witness :
  exists filters,
    computeFilters (VObj [("s", VStr "x")]) (VNum 1) (VNum 10) (VStr "title")
      (VStr "ASC") VUndefined VUndefined
    = inr (VObj [("q", VObj (("s", sort_param (VStr "title") (VStr "ASC"))
                              :: filters));
                 ("page", VNum 1); ("per", VNum 10)])
    /\ lookup "s" (("s", sort_param (VStr "title") (VStr "ASC")) :: filters)
       = Some (VStr (json_quote "title ASC")).
Proof.
  destruct (computeFilters_query_keys (VObj [("s", VStr "x")]) (VNum 1) (VNum 10)
              (VStr "title") (VStr "ASC") VUndefined VUndefined eq_refl)
    as (filters & Hq & _ & Hs & _).
  exists filters; split; [exact Hq | exact Hs].
Defined.

(** X8: in the query of getManyReference, with a truthy target and id and
    a filter object, the reference constraint wins over a filter on the
    same field and leaves the others alone: [q] reads the reference id at
    [<target>_eq] and the filter's value at every other [<k>_eq]; when the
    filter already names the target, [q] has no entry more than the
    filter has. *)
Theorem reference_overrides_filter
        (fl : object) (page perPage field order target id : value) :
  NoDup (keys fl) ->
  truthy target = true -> truthy id = true ->
  exists filters,
    computeFilters (VObj fl) page perPage field order target id
    = inr (VObj [("q", VObj (("s", sort_param field order) :: filters));
                 ("page", page); ("per", perPage)])
    /\ lookup (eq_key (ToString target)) filters = Some id
    /\ (forall k, k <> ToString target -> lookup (eq_key k) filters = lookup k fl)
    /\ (In (ToString target) (keys fl) -> keys filters = map eq_key (keys fl)).
Proof.
  intros Hnd Ht Hi.
  exists (filters_of fl target id).
  split; [now apply computeFilters_shape|].
  unfold filters_of; rewrite Ht, Hi; cbn [andb].
  rewrite generic_filters_map by assumption.
  split; [apply lookup_obj_set_same|]. split.
  - intros k Hk. rewrite lookup_obj_set_other.
    + apply lookup_renamed.
    + intros H; apply eq_key_inj in H; congruence.
  - intros Hin. rewrite obj_set_keys_present.
    + apply keys_renamed.
    + rewrite keys_renamed. now apply in_map.
Qed.

Lemma reference_overrides_filter_witness :
  exists filters,
    computeFilters (VObj [("post_id", VNum 5); ("author_id", VNum 12)])
      (VNum 1) (VNum 10) (VStr "email") (VStr "ASC") (VStr "post_id") (VNum 1)
    = inr (VObj [("q", VObj (("s", sort_param (VStr "email") (VStr "ASC"))
                              :: filters));
                 ("page", VNum 1); ("per", VNum 10)])
    /\ lookup "post_id_eq" filters = Some (VNum 1)
    /\ lookup "author_id_eq" filters = Some (VNum 12)
    /\ keys filters = ["post_id_eq"; "author_id_eq"].
Proof.
  destruct (reference_overrides_filter
              [("post_id", VNum 5); ("author_id", VNum 12)]
              (VNum 1) (VNum 10) (VStr "email") (VStr "ASC") (VStr "post_id")
              (VNum 1)) as (filters & Hq & Ht & Hother & Hkeys).
  - repeat constructor; simpl; intuition discriminate.
  - reflexivity.
  - reflexivity.
  - exists filters. split; [exact Hq|]. split; [exact Ht|]. split.
    + apply (Hother "author_id"). discriminate.
    + apply Hkeys. left; reflexivity.
Defined.


(** ** Reading the requests back *)

Lemma no_char_app (c : ascii) (a b : string) :
  no_char c (a ++ b) = no_char c a && no_char c b.
Proof.
  induction a as [|x a IH]; simpl; [reflexivity|].
  now rewrite IH, andb_assoc.
Qed.

Lemma split_on_no_char (sep : ascii) (s : string) :
  no_char sep s = true -> split_on sep s = [s].
Proof.
  induction s as [|x s IH]; simpl; intros H; [reflexivity|].
  apply andb_prop in H as [Hx Hs]. apply negb_true_iff in Hx.
  now rewrite Hx, IH.
Qed.

Lemma split_first_app (sep : ascii) (a b : string) :
  no_char sep a = true -> split_first sep (a ++ String sep b) = (a, Some b).
Proof.
  induction a as [|x a IH]; simpl; intros H.
  - now rewrite N.eqb_refl.
  - apply andb_prop in H as [Hx Ha]. apply negb_true_iff in Hx.
    now rewrite Hx, IH.
Qed.

Lemma split_first_none (sep : ascii) (s : string) :
  no_char sep s = true -> split_first sep s = (s, None).
Proof.
  induction s as [|x s IH]; simpl; intros H; [reflexivity|].
  apply andb_prop in H as [Hx Hs]. apply negb_true_iff in Hx.
  now rewrite Hx, IH.
Qed.

(** The query of a URL without a fragment whose path holds no [?]. *)
Lemma query_of_url_app (base query : string) :
  no_char "?" base = true -> no_char "#" base = true ->
  no_char "#" query = true ->
  query_of_url (base ++ String "?" query) = query.
Proof.
  intros Hq Hf Hfq; unfold query_of_url.
  rewrite (split_first_none "#").
  - cbn [fst]. now rewrite split_first_app.
  - rewrite no_char_app, Hf. cbn [no_char]. now rewrite Hfq.
Qed.

Lemma split_on_join (sep : ascii) (segs : list string) :
  segs <> [] ->
  Forall (fun seg => no_char sep seg = true) segs ->
  split_on sep (join_strings (chr sep) segs) = segs.
Proof.
  induction segs as [|seg segs IH]; intros Hne Hall; [contradiction|].
  inversion Hall as [|? ? Hseg Hrest]; subst.
  destruct segs as [|seg' segs].
  - now apply split_on_no_char.
  - change (join_strings (chr sep) (seg :: seg' :: segs))
      with (seg ++ String sep (join_strings (chr sep) (seg' :: segs))).
    rewrite split_on_app, split_on_no_char by assumption.
    rewrite IH; [reflexivity | discriminate | assumption].
Qed.

Lemma plus_to_space_none (t : string) :
  no_char "+" t = true -> plus_to_space t = t.
Proof.
  induction t as [|x t IH]; simpl; intros H; [reflexivity|].
  apply andb_prop in H as [Hx Ht]. apply negb_true_iff in Hx.
  change (code "+") with 43%N in Hx. now rewrite Hx, IH.
Qed.

Lemma decode_no_escape (t : string) :
  no_char "%" t = true -> decodeURIComponent t = Some t.
Proof.
  induction t as [|x t IH]; simpl; intros H; [reflexivity|].
  apply andb_prop in H as [Hx Ht]. apply negb_true_iff in Hx.
  change (code "%") with 37%N in Hx. now rewrite Hx, IH.
Qed.

(** Plain text holds none of the characters a query string gives a
    meaning to. *)
Lemma plain_text_no_char (c : ascii) (t : string) :
  plain_char c = false -> plain_text t = true -> no_char c t = true.
Proof.
  intros Hc; induction t as [|x t IH]; simpl; intros H; [reflexivity|].
  apply andb_prop in H as [Hx Ht]. rewrite IH, andb_true_r by assumption.
  apply negb_true_iff, N.eqb_neq. intros Heq.
  assert (x = c) as ->.
  { rewrite <- (ascii_N_embedding x), <- (ascii_N_embedding c).
    unfold code in Heq. now rewrite Heq. }
  congruence.
Qed.

(** Plain text reads back as it is. *)
Lemma decoded_plain (t : string) : plain_text t = true -> decoded t = t.
Proof.
  intros H; unfold decoded.
  rewrite plus_to_space_none by (now apply plain_text_no_char).
  now rewrite decode_no_escape by (now apply plain_text_no_char).
Qed.

Lemma replace_strict_app (a b : string) :
  replace_strict (a ++ b) = replace_strict a ++ replace_strict b.
Proof.
  induction a as [|x a IH]; simpl; [reflexivity|].
  now rewrite IH, append_assoc.
Qed.

Lemma strictUriEncode_cons (c : ascii) (rest : string) :
  strictUriEncode (String c rest)
  = replace_strict (uri_piece c) ++ strictUriEncode rest.
Proof. unfold strictUriEncode; simpl. apply replace_strict_app. Qed.

Lemma decode_piece (c : ascii) (t : string) :
  decodeURIComponent (replace_strict (uri_piece c) ++ t)
  = match decodeURIComponent t with
    | Some r => Some (String c r)
    | None => None
    end.
Proof. destruct c as [[] [] [] [] [] [] [] []]; reflexivity. Qed.

(** What strict-uri-encode writes for a character is plain text and
    percent signs. *)
Lemma piece_is_clean (c : ascii) :
  no_char "&" (replace_strict (uri_piece c)) = true
  /\ no_char "+" (replace_strict (uri_piece c)) = true
  /\ no_char "#" (replace_strict (uri_piece c)) = true.
Proof. destruct c as [[] [] [] [] [] [] [] []]; repeat split. Qed.

(** What strict-uri-encode writes, [decodeURIComponent] reads back. *)
Lemma decode_strictUriEncode (s : string) :
  decodeURIComponent (strictUriEncode s) = Some s.
Proof.
  induction s as [|c s IH]; [reflexivity|].
  now rewrite strictUriEncode_cons, decode_piece, IH.
Qed.

Lemma strictUriEncode_is_clean (s : string) :
  no_char "&" (strictUriEncode s) = true
  /\ no_char "+" (strictUriEncode s) = true
  /\ no_char "#" (strictUriEncode s) = true.
Proof.
  induction s as [|c s (IH1 & IH2 & IH3)]; [repeat split|].
  destruct (piece_is_clean c) as (H1 & H2 & H3).
  rewrite strictUriEncode_cons, !no_char_app, H1, H2, H3, IH1, IH2, IH3.
  repeat split.
Qed.

Lemma decoded_strictUriEncode (s : string) : decoded (strictUriEncode s) = s.
Proof.
  unfold decoded. destruct (strictUriEncode_is_clean s) as (_ & Hplus & _).
  now rewrite plus_to_space_none, decode_strictUriEncode.
Qed.

(** The parameters of a URL whose query holds the one pair [ids=...]. *)
Lemma query_params_ids (base t : string) :
  no_char "?" base = true -> no_char "#" base = true ->
  query_params (base ++ String "?" ("ids=" ++ strictUriEncode t)) = [("ids", t)].
Proof.
  intros Hbase Hfrag; unfold query_params.
  destruct (strictUriEncode_is_clean t) as (Hamp & _ & Hhash).
  rewrite query_of_url_app by (try assumption; cbn; exact Hhash).
  rewrite split_on_no_char by (cbn; exact Hamp).
  cbn [filter nonempty append map split_first]. cbn.
  now rewrite decoded_strictUriEncode.
Qed.

Lemma multi_base_has_no (c : ascii) (apiUrl resource : string) :
  no_char c "/multi" = true ->
  no_char c apiUrl = true -> no_char c resource = true ->
  no_char c (apiUrl ++ "/" ++ resource ++ "/multi") = true.
Proof.
  intros Hm Ha Hr.
  change (apiUrl ++ "/" ++ resource ++ "/multi")
    with (apiUrl ++ String "/" (resource ++ "/multi")).
  rewrite no_char_app, Ha. cbn [no_char andb].
  rewrite no_char_app, Hr, Hm.
  cbn [no_char] in Hm. apply andb_prop in Hm as [-> _]. reflexivity.
Qed.

(** X9: the [ids] of updateMany and deleteMany survive the trip through
    the URL: when the base URL and the resource hold no [?] and no [#],
    the URL of the request has no fragment, its query has the single
    parameter [ids], and the decoded value of [ids] is a JSON string
    literal that parses to the ids joined by commas. *)
Theorem many_ids_round_trip
        (apiUrl : string) (httpClient : request -> outcome response)
        (resource : string) (params : object) (ids : list value)
        (req : request) :
  param params "ids" = VArr ids ->
  no_char "?" apiUrl = true -> no_char "?" resource = true ->
  no_char "#" apiUrl = true -> no_char "#" resource = true ->
  In req (fst (updateMany apiUrl httpClient resource params))
  \/ In req (fst (deleteMany apiUrl httpClient resource params)) ->
  exists text,
    no_char "#" (url req) = true
    /\ query_params (url req) = [("ids", text)]
    /\ url_param (url req) "ids" = Some text
    /\ JSON_parse_string text = Some (array_join "," ids).
Proof.
  intros Hids Ha Hr Hfa Hfr Hin.
  exists (json_quote (array_join "," ids)).
  assert (Hurl : url req
                 = (apiUrl ++ "/" ++ resource ++ "/multi")
                   ++ String "?" ("ids=" ++ strictUriEncode
                                              (json_quote (array_join "," ids)))).
  { unfold updateMany, deleteMany, updateMany_plan, deleteMany_plan in Hin.
    rewrite (ids_query_array params ids Hids) in Hin.
    cbn [bind ret perform fst In] in Hin.
    rewrite stringify_ids in Hin.
    destruct Hin as [[<- | []] | [<- | []]]; cbn [url];
      now rewrite !append_assoc. }
  pose proof (multi_base_has_no "?" _ _ eq_refl Ha Hr) as Hbase.
  pose proof (multi_base_has_no "#" _ _ eq_refl Hfa Hfr) as Hfrag.
  pose proof (query_params_ids _ (json_quote (array_join "," ids)) Hbase Hfrag)
    as Hq.
  rewrite Hurl. split; [|split; [exact Hq | split]].
  - destruct (strictUriEncode_is_clean (json_quote (array_join "," ids)))
      as (_ & _ & Hhash).
    rewrite no_char_app, Hfrag. cbn. exact Hhash.
  - unfold url_param. rewrite Hq. reflexivity.
  - apply JSON_parse_quote.
Qed.

Lemma many_ids_round_trip_witness :
  exists text,
    query_params "http://my.api.url/api/v2/posts/multi?ids=%22123%2C124%2C125%22"
    = [("ids", text)]
    /\ JSON_parse_string text = Some "123,124,125".
Proof.
  destruct (many_ids_round_trip Sample.api (Sample.answering None VNull) "posts"
              Sample.many_params Sample.ids
              (mkRequest "http://my.api.url/api/v2/posts/multi?ids=%22123%2C124%2C125%22"
                 (Some "DELETE") None)
              eq_refl eq_refl eq_refl eq_refl eq_refl
              (or_intror (or_introl eq_refl)))
    as (text & _ & Hq & _ & Hparse).
  exists text; split; [exact Hq | exact Hparse].
Defined.

Lemma plain_text_digits (d : Decimal.uint) :
  plain_text (NilEmpty.string_of_uint d) = true.
Proof.
  induction d as [|d IH|d IH|d IH|d IH|d IH|d IH|d IH|d IH|d IH|d IH];
    cbn [NilEmpty.string_of_uint plain_text]; try reflexivity;
    now rewrite IH.
Qed.

Lemma plain_text_string_of_Z (n : Z) : plain_text (string_of_Z n) = true.
Proof.
  unfold string_of_Z, NilZero.string_of_int.
  destruct (Z.to_int n) as [d | d]; cbn [plain_text];
    destruct d; try reflexivity; apply plain_text_digits.
Qed.

Lemma plain_text_app (a b : string) :
  plain_text (a ++ b) = plain_text a && plain_text b.
Proof.
  induction a as [|x a IH]; simpl; [reflexivity|].
  now rewrite IH, andb_assoc.
Qed.

(** The text of an integer up to 2^53 in magnitude, which is written in
    plain decimal, passes through a query string as it is. *)
Lemma plain_text_number (n : Z) :
  Z.abs n <= 2 ^ 53 -> plain_text (ToString (VNum n)) = true.
Proof.
  intros H; cbn [ToString]; unfold number_to_string, nearest_double.
  apply Z.leb_le in H. rewrite H.
  replace (Z.abs n <? 10 ^ 21) with true
    by (symmetry; apply Z.ltb_lt; apply Z.leb_le in H;
        eapply Z.le_lt_trans; [exact H | reflexivity]).
  rewrite plain_text_app, plain_text_string_of_Z.
  now destruct (n <? 0).
Qed.

Lemma id_in_segment_read_back (id : value) :
  plain_text (ToString id) = true ->
  no_char "&" (id_in_segment id) = true
  /\ no_char "#" (id_in_segment id) = true
  /\ nonempty (id_in_segment id) = true
  /\ (let '(name, v) := split_first "=" (id_in_segment id) in
      (decoded name, match v with Some t => decoded t | None => "" end))
     = (id_in_name, ToString id).
Proof.
  intros H.
  pose proof (plain_text_no_char "&" _ eq_refl H) as Hamp.
  pose proof (plain_text_no_char "#" _ eq_refl H) as Hhash.
  split; [cbn; exact Hamp|]. split; [cbn; exact Hhash|].
  split; [reflexivity|].
  cbn. now rewrite decoded_plain.
Qed.

Lemma no_char_join (c : ascii) (segs : list string) :
  no_char c "&" = true ->
  Forall (fun seg => no_char c seg = true) segs ->
  no_char c (join_strings "&" segs) = true.
Proof.
  intros Hsep; induction segs as [|seg segs IH]; intros Hall; [reflexivity|].
  inversion Hall as [|? ? Hseg Hrest]; subst.
  destruct segs as [|seg' segs]; [exact Hseg|].
  change (join_strings "&" (seg :: seg' :: segs))
    with (seg ++ "&" ++ join_strings "&" (seg' :: segs)).
  rewrite !no_char_app, Hseg, Hsep. now rewrite IH.
Qed.

(** X10: the ids of getMany can be read back from its URL: when the
    base URL and the resource hold no [?] and no [#] and the text of every
    id is made of letters, digits and [- _ . ~] (as the text of every
    integer up to 2^53 is), the URL has no fragment and the parameters of
    its query are one [q["id_in"][]] per id, in the order of the ids, each
    with the text of its id; for no id at all the query has no
    parameter. *)
Theorem getMany_ids_round_trip
        (apiUrl : string) (httpClient : request -> outcome response)
        (resource : string) (params : object) (ids : list value)
        (req : request) :
  param params "ids" = VArr ids ->
  no_char "?" apiUrl = true -> no_char "?" resource = true ->
  no_char "#" apiUrl = true -> no_char "#" resource = true ->
  Forall (fun id => plain_text (ToString id) = true) ids ->
  In req (fst (getMany apiUrl httpClient resource params)) ->
  no_char "#" (url req) = true
  /\ query_params (url req) = map (fun id => (id_in_name, ToString id)) ids.
Proof.
  intros Hids Ha Hr Hfa Hfr Hplain Hin.
  unfold getMany, getMany_plan in Hin. rewrite Hids in Hin.
  cbn [iterate bind ret perform fst In] in Hin.
  destruct Hin as [<- | []]; cbn [url GET].
  rewrite id_in_segments_map.
  replace (apiUrl ++ "/" ++ resource ++ "?"
           ++ join_strings "&" (map id_in_segment ids))
    with ((apiUrl ++ "/" ++ resource)
          ++ String "?" (join_strings "&" (map id_in_segment ids)))
    by now rewrite !append_assoc.
  assert (Hjoin : no_char "#" (join_strings "&" (map id_in_segment ids)) = true).
  { apply no_char_join; [reflexivity|].
    apply Forall_map. eapply Forall_impl; [|exact Hplain].
    intros x Hx. apply (id_in_segment_read_back x Hx). }
  assert (Hbase : forall c, no_char c "/" = true -> no_char c apiUrl = true ->
                            no_char c resource = true ->
                            no_char c (apiUrl ++ "/" ++ resource) = true).
  { intros c Hc H1 H2. rewrite !no_char_app, H1, H2, Hc. reflexivity. }
  split.
  { rewrite no_char_app, (Hbase "#"%char) by (assumption || reflexivity).
    cbn [no_char andb]. rewrite Hjoin. reflexivity. }
  unfold query_params. rewrite query_of_url_app
    by (try exact Hjoin; apply Hbase; (assumption || reflexivity)).
  destruct ids as [|id ids]; [reflexivity|].
  change "&" with (chr "&").
  rewrite split_on_join.
  - clear Hids Hjoin. induction Hplain as [|x l Hx Hl IH]; [reflexivity|].
    destruct (id_in_segment_read_back x Hx) as (_ & _ & Hne & Hpair).
    cbn [map filter]. rewrite Hne. cbn [map]. rewrite Hpair. f_equal. exact IH.
  - discriminate.
  - apply Forall_map. eapply Forall_impl; [|exact Hplain].
    intros x Hx. apply (id_in_segment_read_back x Hx).
Qed.

Lemma getMany_ids_round_trip_witness :
  query_params
    (url (GET (Sample.api ++ "/" ++ "posts" ++ "?"
               ++ join_strings "&" (map id_in_segment Sample.ids))))
  = [(id_in_name, "123"); (id_in_name, "124"); (id_in_name, "125")].
Proof.
  apply (getMany_ids_round_trip Sample.api (Sample.answering None VNull) "posts"
           Sample.many_params Sample.ids); try reflexivity.
  - repeat constructor.
  - left; reflexivity.
Defined.

(** ** More on the count header *)

Lemma all_digits_no_slash (ds : string) :
  all_digits ds = true -> no_char "/" ds = true.
Proof.
  induction ds as [|c ds IH]; simpl; intros H; [reflexivity|].
  apply andb_prop in H as [Hc Hds]. rewrite IH, andb_true_r by assumption.
  unfold is_digit in Hc. apply andb_prop in Hc as [Hlo _].
  apply N.leb_le in Hlo. apply negb_true_iff, N.eqb_neq.
  change (code "/") with 47%N. lia.
Qed.

Lemma trailing_segment_last (pre t : string) :
  no_char "/" t = true -> trailing_segment (pre ++ "/" ++ t) = t.
Proof.
  intros H; unfold trailing_segment.
  change (pre ++ "/" ++ t) with (pre ++ String "/" t).
  rewrite split_on_app, (split_on_no_char "/" t) by assumption.
  now rewrite last_last.
Qed.

Lemma trailing_segment_whole (t : string) :
  no_char "/" t = true -> trailing_segment t = t.
Proof.
  intros H; unfold trailing_segment. now rewrite split_on_no_char.
Qed.

Lemma digits_prefix_stops (a : Z) (ds : string) (c : ascii) (rest : string) :
  all_digits ds = true -> is_digit c = false ->
  digits_prefix (Some a) (ds ++ String c rest) = Some (decimal_from a ds).
Proof.
  revert a; induction ds as [|d ds IH]; simpl; intros a Hds Hc.
  - now rewrite Hc.
  - apply andb_prop in Hds as [Hd Hds]. rewrite Hd. now apply IH.
Qed.

(** [parseInt] reads the digits a string opens with and ignores what
    follows them. *)
Lemma parseInt_digits_then_text (ds : string) (c : ascii) (rest : string) :
  ds <> "" -> all_digits ds = true -> is_digit c = false ->
  parseInt (VStr (ds ++ String c rest)) = Number_of_Z (decimal_value ds).
Proof.
  destruct ds as [|d ds]; [congruence|]; intros _ H Hc.
  simpl in H; apply andb_prop in H as [Hd Hds].
  cbn [append]. rewrite parseInt_unsigned by assumption.
  cbn [digits_prefix]. rewrite Hd, digits_prefix_stops by assumption.
  reflexivity.
Qed.

(** X11: a count header that is a bare number, as [X-Total-Count: 319],
    serves as well as a content range: when the header the provider is
    configured with holds a non-empty string of digits and no [/], the
    number those digits denote (the integer itself up to 2^53, the
    nearest double above) is the total of getList and getManyReference. *)
Theorem total_from_bare_count
        (apiUrl : string) (httpClient : request -> outcome response)
        (countHeader : string) (op : operation) (resource : string)
        (params : object) (req : request) (resp : response) (ds : string) :
  op = GetList \/ op = GetManyReference ->
  fst (provider apiUrl httpClient countHeader op resource params) = [req] ->
  httpClient req = Resolves resp ->
  headers_get resp countHeader = Some ds ->
  ds <> "" -> all_digits ds = true ->
  snd (provider apiUrl httpClient countHeader op resource params)
  = Resolves (VObj [("data", json resp);
                    ("total", Number_of_Z (decimal_value ds))])
  /\ (decimal_value ds <= 2 ^ 53 ->
      Number_of_Z (decimal_value ds) = VNum (decimal_value ds)).
Proof.
  intros Hop Hcalls Hresp Hh Hne Hd. split; [|apply Number_of_Z_exact].
  rewrite (listing_outcome _ _ _ _ _ _ _ _ Hop Hcalls Hresp), Hh.
  rewrite trailing_segment_whole by now apply all_digits_no_slash.
  now rewrite parseInt_digits.
Qed.

Lemma total_from_bare_count_witness :
  snd (provider Sample.api (Sample.answering (Some "319") (VArr []))
         "X-Total-Count" GetManyReference "comments"
         (Sample.reference_params (VNum 1)))
  = Resolves (VObj [("data", VArr []); ("total", VNum 319)])
  /\ snd (provider Sample.api
            (Sample.answering (Some "9007199254740993") (VArr []))
            "X-Total-Count" GetList "posts" Sample.list_params)
     = Resolves (VObj [("data", VArr []); ("total", VNum 9007199254740992)]).
Proof.
  split.
  - refine (proj1 (total_from_bare_count Sample.api
              (Sample.answering (Some "319") (VArr [])) "X-Total-Count"
              GetManyReference "comments" (Sample.reference_params (VNum 1))
              (GET "http://my.api.url/api/v2/comments?page=1&per=10&q=%5Bobject%20Object%5D")
              (mkResponse (fun _ => Some "319") (VArr [])) "319"
              (or_intror eq_refl) eq_refl eq_refl eq_refl _ eq_refl)).
    discriminate.
  - refine (proj1 (total_from_bare_count Sample.api
              (Sample.answering (Some "9007199254740993") (VArr []))
              "X-Total-Count" GetList "posts" Sample.list_params
              (GET "http://my.api.url/api/v2/posts?page=1&per=10&q=%5Bobject%20Object%5D")
              (mkResponse (fun _ => Some "9007199254740993") (VArr []))
              "9007199254740993"
              (or_introl eq_refl) eq_refl eq_refl eq_refl _ eq_refl)).
    discriminate.
Defined.

(** X12: text after the digits of the total is ignored, not reported:
    when the text after the last [/] of the count header opens with digits
    and goes on with anything that is no digit, getList and
    getManyReference resolve with the number the digits denote (the
    integer itself up to 2^53, the nearest double above). *)
Theorem total_ignores_trailing_text
        (apiUrl : string) (httpClient : request -> outcome response)
        (countHeader : string) (op : operation) (resource : string)
        (params : object) (req : request) (resp : response)
        (pre ds : string) (c : ascii) (rest : string) :
  op = GetList \/ op = GetManyReference ->
  fst (provider apiUrl httpClient countHeader op resource params) = [req] ->
  httpClient req = Resolves resp ->
  headers_get resp countHeader = Some (pre ++ "/" ++ ds ++ String c rest) ->
  ds <> "" -> all_digits ds = true ->
  is_digit c = false -> no_char "/" (String c rest) = true ->
  snd (provider apiUrl httpClient countHeader op resource params)
  = Resolves (VObj [("data", json resp);
                    ("total", Number_of_Z (decimal_value ds))])
  /\ (decimal_value ds <= 2 ^ 53 ->
      Number_of_Z (decimal_value ds) = VNum (decimal_value ds)).
Proof.
  intros Hop Hcalls Hresp Hh Hne Hd Hc Hrest. split; [|apply Number_of_Z_exact].
  rewrite (listing_outcome _ _ _ _ _ _ _ _ Hop Hcalls Hresp), Hh.
  rewrite trailing_segment_last
    by (rewrite no_char_app, Hrest, all_digits_no_slash by assumption;
        reflexivity).
  now rewrite parseInt_digits_then_text.
Qed.

Lemma total_ignores_trailing_text_witness :
  snd (provider Sample.api (Sample.answering (Some "posts 0-4/27 items") (VArr []))
         "Content-Range" GetList "posts" Sample.list_params)
  = Resolves (VObj [("data", VArr []); ("total", VNum 27)]).
Proof.
  refine (proj1 (total_ignores_trailing_text Sample.api
            (Sample.answering (Some "posts 0-4/27 items") (VArr []))
            "Content-Range" GetList "posts" Sample.list_params
            (GET "http://my.api.url/api/v2/posts?page=1&per=10&q=%5Bobject%20Object%5D")
            (mkResponse (fun _ => Some "posts 0-4/27 items") (VArr []))
            "posts 0-4" "27" " " "items"
            (or_introl eq_refl) eq_refl eq_refl eq_refl _ eq_refl eq_refl eq_refl)).
  discriminate.
Defined.

(** ** What the listing requests show *)

Lemma listing_plan_wire (apiUrl countHeader resource : string)
      (pagination sort filter target id : value) (req : request)
      (dec : response -> exc value) :
  (page <- get_field pagination "page" ;;
   perPage <- get_field pagination "perPage" ;;
   field <- get_field sort "field" ;;
   order <- get_field sort "order" ;;
   query <- computeFilters filter page perPage field order target id ;;
   ret (GET (apiUrl ++ "/" ++ resource ++ "?" ++ stringify query),
        data_and_total countHeader)) = inr (req, dec) ->
  exists page perPage,
    get_field pagination "page" = inr page
    /\ get_field pagination "perPage" = inr perPage
    /\ req = GET (apiUrl ++ "/" ++ resource ++ "?"
                  ++ stringify (VObj [("q", VObj []); ("page", page);
                                      ("per", perPage)])).
Proof.
  intros H. split_binds H. injection H as <- _.
  match goal with
  | E : computeFilters _ ?p ?pp _ _ _ _ = inr _ |- _ =>
      exists p, pp; rewrite (computeFilters_on_the_wire _ _ _ _ _ _ _ _ E)
  end.
  repeat split.
Qed.

(** X13: the request of getList and of getManyReference is decided by
    the page object alone: its URL is [apiUrl/resource?] followed by the
    serialization of the page, the page size and an empty [q].  Sort,
    filter, target and reference id have no part in it. *)
Theorem listing_request_shows_page_only
        (apiUrl : string) (httpClient : request -> outcome response)
        (countHeader : string) (op : operation) (resource : string)
        (params : object) (req : request) :
  op = GetList \/ op = GetManyReference ->
  In req (fst (provider apiUrl httpClient countHeader op resource params)) ->
  exists page perPage,
    get_field (param params (page_field op)) "page" = inr page
    /\ get_field (param params (page_field op)) "perPage" = inr perPage
    /\ req = GET (apiUrl ++ "/" ++ resource ++ "?"
                  ++ stringify (VObj [("q", VObj []); ("page", page);
                                      ("per", perPage)])).
Proof.
  intros Hop Hin; rewrite provider_perform in Hin.
  destruct (perform_calls _ _ _ Hin) as (dec & Hplan & _).
  destruct Hop as [-> | ->]; cbn [operation_plan page_field] in *;
    now apply listing_plan_wire in Hplan.
Qed.

Lemma listing_request_shows_page_only_witness :
  fst (getManyReference Sample.api (Sample.answering None VNull) "Content-Range"
         "posts" (Sample.reference_params (VNum 1)))
  = fst (getList Sample.api (Sample.answering None VNull) "Content-Range"
           "posts" Sample.list_params).
Proof.
  destruct (listing_request_shows_page_only Sample.api
              (Sample.answering None VNull) "Content-Range" GetManyReference
              "posts" (Sample.reference_params (VNum 1))
              (GET "http://my.api.url/api/v2/posts?page=1&per=10&q=%5Bobject%20Object%5D")
              (or_intror eq_refl) (or_introl eq_refl))
    as (page & perPage & Hp & Hpp & Hreq).
  injection Hp as <-. injection Hpp as <-.
  change (fst (getManyReference Sample.api (Sample.answering None VNull)
                 "Content-Range" "posts" (Sample.reference_params (VNum 1))))
    with [GET "http://my.api.url/api/v2/posts?page=1&per=10&q=%5Bobject%20Object%5D"].
  rewrite Hreq. reflexivity.
Defined.
